(** * Isolated pyannote diarization: a shallow embedding of
      [pyannote_mps_helper.py] and [pyannote_isolated.py].

    The child-process worker [diarize_isolated] and the helpers it calls are
    written in a small writer/exception monad [M] whose trace records the
    observable effects (cache clears, garbage collections, inference calls,
    artifact writes, ...).  The parent [run_diarization_isolated] threads an
    explicit supervisor state (file system, child liveness, clock, trace)
    through a state/exception monad [SM] with Python's try/except/finally.

    External collaborators (torch, pyannote, ffmpeg, the OS scheduler) are
    oracles: records of what each call does.  Floats that the code only
    carries around (segment bounds, elapsed time) are rationals. *)

From Stdlib Require Import String Ascii List ZArith QArith Bool Lia.
From Stdlib Require Import Sorting.Sorted Sorting.Permutation.
Import ListNotations.
Open Scope string_scope.
Open Scope list_scope.
Set Warnings "-register-all".

(** ** Python values *)

(** JSON documents as [json.dump] writes them; objects keep key order. *)
Inductive json : Type :=
| JNull
| JBool (b : bool)
| JInt (z : Z)
| JFloat (q : Q)
| JStr (s : string)
| JArr (l : list json)
| JObj (kvs : list (string * json)).

(** [dict.get]: [json.load] keeps the last binding of a duplicated key. *)
Definition lookup (k : string) (kvs : list (string * json)) : option json :=
  fold_left (fun acc kv => if String.eqb k (fst kv) then Some (snd kv) else acc)
            kvs None.

Definition has_key (k : string) (j : json) : bool :=
  match j with
  | JObj kvs => match lookup k kvs with Some _ => true | None => false end
  | _ => false
  end.

(** Python truthiness of a value returned by [dict.get] ([None] is falsy). *)
Definition truthy (o : option json) : bool :=
  match o with
  | None | Some JNull => false
  | Some (JBool b) => b
  | Some (JInt z) => negb (Z.eqb z 0)
  | Some (JFloat q) => negb (Qeq_bool q 0)
  | Some (JStr s) => negb (String.eqb s "")
  | Some (JArr l) => match l with [] => false | _ => true end
  | Some (JObj kvs) => match kvs with [] => false | _ => true end
  end.

(** Exceptions: the class decides which [except] clause catches them. *)
Inductive exc_class : Type :=
| RuntimeErr          (* RuntimeError, torch OOM errors included *)
| CalledProcessErr    (* subprocess.CalledProcessError *)
| OSErr               (* OSError, FileNotFoundError *)
| ValueErr            (* ValueError *)
| NameErr             (* NameError / UnboundLocalError *)
| AttributeErr        (* AttributeError *)
| JSONDecodeErr       (* json.JSONDecodeError *)
| OtherErr.

Record exc : Type := Exn { exc_cls : exc_class; exc_msg : string }.

Definition is_runtime_error (e : exc) : bool :=
  match exc_cls e with RuntimeErr => true | _ => false end.

(** ** Strings: [str.lower] on ASCII and the [in] operator *)

Definition ascii_lower (c : ascii) : ascii :=
  let n := nat_of_ascii c in
  if (65 <=? n)%nat && (n <=? 90)%nat then ascii_of_nat (n + 32) else c.

Fixpoint lower (s : string) : string :=
  match s with
  | EmptyString => EmptyString
  | String c t => String (ascii_lower c) (lower t)
  end.

(** [sub in s]. *)
Fixpoint contains (sub s : string) : bool :=
  match s with
  | EmptyString => String.prefix sub s
  | String _ t => String.prefix sub s || contains sub t
  end.

(** The OOM test of both [except RuntimeError] clauses. *)
Definition is_memory_message (msg : string) : bool :=
  contains "out of memory" (lower msg) || contains "memory" (lower msg).

(** ** Devices and observable effects of the worker *)

Inductive device : Type := DevCPU | DevMPS | DevCUDA.

Definition device_str_of (d : device) : string :=
  match d with DevCPU => "cpu" | DevMPS => "mps" | DevCUDA => "cuda" end.

(** The statements of [get_safe_device]'s self-test. *)
Inductive selftest_step : Type := TAlloc | TMul | TDel | TEmptyCache | TGc.

Inductive event : Type :=
| EvTest (s : selftest_step)        (* one statement of the MPS self-test *)
| EvWarn                            (* warnings.warn *)
| EvEmptyCache (d : device)         (* torch.mps / torch.cuda .empty_cache() *)
| EvGc                              (* gc.collect() *)
| EvInfer                           (* pipeline(audio) *)
| EvToDevice (d : device)           (* pipeline.to(device) *)
| EvFfmpeg (src dst : string)       (* subprocess.run(['ffmpeg', ...]) *)
| EvWrite (path : string) (j : json)  (* json.dump to path *)
| EvUnlink (path : string).         (* os.unlink *)

(** ** The worker monad: effects trace plus a raised exception or a value *)

Definition M (A : Type) : Type := (list event * (exc + A))%type.

Definition ret {A} (a : A) : M A := ([], inr a).
Definition raise {A} (e : exc) : M A := ([], inl e).
Definition emit (ev : event) : M unit := ([ev], inr tt).

Definition bind {A B} (m : M A) (f : A -> M B) : M B :=
  match m with
  | (t, inl e) => (t, inl e)
  | (t, inr a) => let (t', r) := f a in (t ++ t', r)
  end.

(** [try: m except Exception as e: h(e)]; [h] re-raises what it does not
    handle. *)
Definition try_except {A} (m : M A) (h : exc -> M A) : M A :=
  match m with
  | (t, inl e) => let (t', r) := h e in (t ++ t', r)
  | ok => ok
  end.

(** Run [m], catching every exception: [try ... except Exception as e]. *)
Definition attempt {A} (m : M A) : M (exc + A) :=
  let (t, r) := m in (t, inr r).

Declare Scope m_scope.
Notation "x <- m ;; f" := (bind m (fun x => f))
  (at level 61, m at next level, right associativity) : m_scope.
Notation "m ;; f" := (bind m (fun _ : unit => f))
  (at level 61, right associativity) : m_scope.
Open Scope m_scope.

Definition trace_of {A} (m : M A) : list event := fst m.
Definition result_of {A} (m : M A) : exc + A := snd m.

(** ** [pyannote_mps_helper.get_safe_device] *)

(** What the torch runtime does on this host. *)
Record mps_probe : Type := MpsProbe {
  has_mps_backend : bool;                         (* hasattr(torch.backends, 'mps') *)
  mps_is_available : bool;                        (* torch.backends.mps.is_available() *)
  step_raises : selftest_step -> option exc       (* which self-test statement raises *)
}.

Definition test_step (pr : mps_probe) (s : selftest_step) : M unit :=
  emit (EvTest s) ;;
  match step_raises pr s with Some e => raise e | None => ret tt end.

(** The [if] block returns early ([Some d]) or falls through ([None]) to
    the final [return torch.device('cpu')] of line 44. *)
Definition get_safe_device (prefer_mps fallback_to_cpu : bool) (pr : mps_probe)
  : M device :=
  early <-
    (if prefer_mps && has_mps_backend pr && mps_is_available pr then
       try_except
         (test_step pr TAlloc ;;         (* torch.randn(10, 10).to('mps') *)
          test_step pr TMul ;;           (* _ = test_tensor * 2 *)
          test_step pr TDel ;;           (* del test_tensor *)
          test_step pr TEmptyCache ;;    (* torch.mps.empty_cache() *)
          test_step pr TGc ;;            (* gc.collect() *)
          ret (Some DevMPS))
         (fun _ => emit EvWarn ;;
                   if fallback_to_cpu then ret (Some DevCPU) else ret None)
     else ret None) ;;
  match early with
  | Some d => ret d
  | None => ret DevCPU
  end.

(** ** [pyannote_mps_helper.process_with_memory_management] *)

Definition cache_clear (d : device) : M unit :=
  match d with
  | DevMPS => emit (EvEmptyCache DevMPS)
  | DevCUDA => emit (EvEmptyCache DevCUDA)
  | DevCPU => ret tt
  end.

(** A segment of [diarization.itertracks(yield_label=True)]. *)
Record turn : Type := Turn { turn_start : Q; turn_end : Q; turn_label : string }.

(** What one call [pipeline(audio)] does. *)
Inductive outcome : Type :=
| Ok (tracks : list turn)
| Raise (e : exc).

Definition pipeline_call (o : outcome) : M (list turn) :=
  emit EvInfer ;;
  match o with Ok r => ret r | Raise e => raise e end.

Definition process_with_memory_management {A} (call : M A) (d : device) : M A :=
  cache_clear d ;; emit EvGc ;;
  try_except
    (result <- call ;;
     cache_clear d ;; emit EvGc ;;
     ret result)
    (fun e =>
       (* [except RuntimeError]: prints suggestions when the message is about
          memory, then [raise]; other exceptions are not caught *)
       raise e).

(** ** [pathlib.PurePath.with_suffix] (POSIX, on a normalised path) *)

Fixpoint rfind_aux (c : ascii) (s : string) (i : nat) (acc : option nat)
  : option nat :=
  match s with
  | EmptyString => acc
  | String d t => rfind_aux c t (S i) (if Ascii.eqb c d then Some i else acc)
  end.

(** [s.rfind(c)], [None] standing for -1. *)
Definition rfind (c : ascii) (s : string) : option nat := rfind_aux c s 0 None.

(** [PurePath.name]: the last component. *)
Definition path_name (p : string) : string :=
  match rfind "/"%char p with
  | Some j => String.substring (S j) (String.length p) p
  | None => p
  end.

(** Everything up to and including the last separator. *)
Definition path_dir (p : string) : string :=
  match rfind "/"%char p with
  | Some j => String.substring 0 (S j) p
  | None => ""
  end.

(** The position of [PurePath.suffix] in [name], if it is not empty:
    [i = name.rfind('.')], kept when [0 < i < len(name) - 1]. *)
Definition suffix_pos (name : string) : option nat :=
  match rfind "."%char name with
  | Some i => if (0 <? i)%nat && (i <? String.length name - 1)%nat then Some i
              else None
  | None => None
  end.

Definition value_error (msg : string) : exc := Exn ValueErr msg.

Definition with_suffix (p suffix : string) : M string :=
  if contains "/" suffix then raise (value_error "Invalid suffix")
  else if (negb (String.eqb suffix "") && negb (String.prefix "." suffix))
          || String.eqb suffix "." then
    raise (value_error (String.append "Invalid suffix '"
                          (String.append suffix "'")))
  else
    let name := path_name p in
    if String.eqb name "" then raise (value_error "has an empty name")
    else
      let stem := match suffix_pos name with
                  | Some i => String.substring 0 i name
                  | None => name
                  end in
      ret (String.append (path_dir p) (String.append stem suffix)).

(** ** The worker [pyannote_isolated.diarize_isolated] *)

Inductive ffmpeg_result : Type :=
| FfExit (code : Z)           (* ffmpeg ran and exited with this status *)
| FfLaunchError (e : exc).    (* ffmpeg could not be started *)

(** What the libraries and tools do inside the child process. *)
Record worker_env : Type := WorkerEnv {
  we_available : bool;              (* PYANNOTE_AVAILABLE *)
  we_create_pipeline : option exc;  (* create_pyannote_pipeline_safe raises *)
  we_mps_available : bool;          (* torch.backends.mps.is_available() *)
  we_param_device : option string;  (* str(first_param.device), when readable *)
  we_ffmpeg : ffmpeg_result;
  we_infer : nat -> outcome;        (* the n-th call pipeline(converted_path) *)
  we_to_cpu : option exc;           (* pipeline.to(torch.device('cpu')) raises *)
  we_elapsed : Q                    (* time.time() - start_time *)
}.

(** [subprocess.run([...], check=True, capture_output=True)]. *)
Definition run_ffmpeg (env : worker_env) (src dst : string) : M unit :=
  emit (EvFfmpeg src dst) ;;
  match we_ffmpeg env with
  | FfExit 0 => ret tt
  | FfExit _ => raise (Exn CalledProcessErr "returned non-zero exit status")
  | FfLaunchError e => raise e
  end.

Definition segment_json (t : turn) : json :=
  JObj [("start", JFloat (turn_start t)); ("end", JFloat (turn_end t));
        ("speaker", JStr (turn_label t))].

(** [speaker_segments] built from [diarization.itertracks(yield_label=True)]. *)
Definition speaker_segments (tracks : list turn) : list json :=
  map segment_json tracks.

(** [sorted(...)] on strings: insertion with [<]. *)
Fixpoint insert_str (x : string) (l : list string) : list string :=
  match l with
  | [] => [x]
  | y :: t => if String.ltb y x then y :: insert_str x t else x :: l
  end.

Definition sorted_strings (l : list string) : list string :=
  fold_right insert_str [] l.

(** [sorted(list(set(seg['speaker'] for seg in speaker_segments)))];
    [seg['speaker']] is the label of the track the segment was built from. *)
Definition speakers_of (tracks : list turn) : list string :=
  sorted_strings (nodup string_dec (map turn_label tracks)).

Definition json_strs (l : list string) : json := JArr (map JStr l).

Definition success_payload (speakers : list string) (segs : list json)
  (device_str : string) (elapsed : Q) : json :=
  JObj [("success", JBool true); ("speakers", json_strs speakers);
        ("segments", JArr segs);
        ("total_segments", JInt (Z.of_nat (length segs)));
        ("device_used", JStr device_str); ("processing_time", JFloat elapsed)].

Definition fallback_payload (speakers : list string) (segs : list json)
  (err : string) : json :=
  JObj [("success", JBool true); ("speakers", json_strs speakers);
        ("segments", JArr segs);
        ("total_segments", JInt (Z.of_nat (length segs)));
        ("device_used", JStr "cpu"); ("fallback_cpu", JBool true);
        ("error", JStr err)].

Definition failure_payload (err : string) : json :=
  JObj [("success", JBool false); ("error", JStr err)].

Definition unbound_local (name : string) : exc :=
  Exn NameErr (String.append "cannot access local variable " name).

(** The body of the [try] from the conversion on (lines 91-148). *)
Definition diarize_converted (env : worker_env)
  (audio_file_path output_json_path converted_path : string)
  (d : device) (device_str : string) : M (option json) :=
  run_ffmpeg env audio_file_path converted_path ;;
  diarization <- process_with_memory_management (pipeline_call (we_infer env 0)) d ;;
  let segs := speaker_segments diarization in
  let speakers := speakers_of diarization in
  let result := success_payload speakers segs device_str (we_elapsed env) in
  emit (EvWrite output_json_path result) ;;
  emit (EvUnlink converted_path) ;;       (* ffmpeg created it *)
  (match d with DevMPS => emit (EvEmptyCache DevMPS) | _ => ret tt end) ;;
  emit EvGc ;;
  ret (Some result).

(** The inner [try] of the OOM branch (lines 155-190); [pipeline_bound] and
    [converted] say which locals were assigned when the error was raised. *)
Definition cpu_fallback (env : worker_env) (output_json_path : string)
  (pipeline_bound : bool) (converted : option string) (e : exc) : M json :=
  (if pipeline_bound then
     emit (EvToDevice DevCPU) ;;
     match we_to_cpu env with Some e' => raise e' | None => ret tt end
   else raise (unbound_local "pipeline")) ;;
  match converted with
  | None => raise (unbound_local "converted_path")
  | Some cp =>
      diarization <- pipeline_call (we_infer env 1) ;;
      let result := fallback_payload (speakers_of diarization)
                      (speaker_segments diarization) (exc_msg e) in
      emit (EvWrite output_json_path result) ;;
      emit (EvUnlink cp) ;;
      ret result
  end.

(** [except RuntimeError as e:] (lines 150-209); other exceptions escape. *)
Definition except_runtime (env : worker_env) (output_json_path : string)
  (pipeline_bound : bool) (converted : option string) (e : exc)
  : M (option json) :=
  if negb (is_runtime_error e) then raise e
  else
    r <- (if is_memory_message (exc_msg e)
          then attempt (cpu_fallback env output_json_path pipeline_bound converted e)
          else ret (inl e)) ;;
    match r with
    | inr result => ret (Some result)
    | inl error =>
        emit (EvWrite output_json_path (failure_payload (exc_msg error))) ;;
        ret None
    end.

(** The worker once [converted_path] is assigned (line 89): the rest of the
    [try] block with its [except RuntimeError] handler. *)
Definition diarize_from_path (env : worker_env)
  (audio_file_path output_json_path converted_path : string)
  (d : device) (device_str : string) : M (option json) :=
  try_except
    (diarize_converted env audio_file_path output_json_path converted_path
       d device_str)
    (except_runtime env output_json_path true (Some converted_path)).

(** [batch_size] only reaches [create_pyannote_pipeline_safe], whose effect
    is the oracle [we_create_pipeline]. *)
Definition diarize_isolated (env : worker_env)
  (audio_file_path output_json_path : string) (use_mps : bool) (batch_size : Z)
  : M (option json) :=
  if negb (we_available env) then
    emit (EvWrite output_json_path
            (failure_payload "pyannote_mps_helper non disponible")) ;;
    ret None
  else
    match we_create_pipeline env with
    | Some e => except_runtime env output_json_path false None e
    | None =>
        let d := if use_mps && we_mps_available env then DevMPS else DevCPU in
        let device_str := match we_param_device env with
                          | Some s => s
                          | None => device_str_of d
                          end in
        r <- attempt (with_suffix audio_file_path "_16k.wav") ;;
        match r with
        | inl e => except_runtime env output_json_path true None e
        | inr converted_path =>
            diarize_from_path env audio_file_path output_json_path
              converted_path d device_str
        end
    end.

(** ** The supervisor [pyannote_isolated.run_diarization_isolated] *)

(** The content of the result file as the parent finds it. *)
Inductive content : Type :=
| CEmpty                (* as created by NamedTemporaryFile: nothing written *)
| CMalformed            (* not parseable by json.load (e.g. a torn write) *)
| CDoc (j : json).

(** How the child process behaves, as seen from the parent. *)
Inductive child_run : Type :=
| ChildExits (t_exit : nat) (exitcode : Z) (artifact : content)
    (* exits on its own [t_exit] seconds after [start], before the deadline,
       leaving [artifact] in the result file *)
| ChildHangs (artifact : content) (term_delay kill_delay : option nat).
    (* still running at the deadline, with [artifact] in the result file;
       it dies [term_delay] seconds after SIGTERM and [kill_delay] seconds
       after SIGKILL ([None]: not within any bound) *)

Inductive sevent : Type :=
| SMkTemp (p : string)      (* tempfile.NamedTemporaryFile(delete=False) *)
| SSpawn                    (* process.start() *)
| SJoin (bound : nat)       (* process.join(timeout=bound) *)
| STerminate                (* process.terminate() *)
| SKill                     (* process.kill() *)
| SRead (p : string)        (* open(p).read() + json.load *)
| SUnlink (p : string).     (* os.unlink(p) *)

Record sup_state : Type := SupState {
  st_fs : string -> option content;   (* files the invocation can see *)
  st_alive : bool;                    (* the child process is alive *)
  st_pending : option nat;            (* delay to death after the last signal *)
  st_clock : nat;                     (* seconds elapsed *)
  st_trace : list sevent;
  st_tmp_error : string -> option string
    (* the message of the OSError [NamedTemporaryFile] raises when it would
       create this path (too many open files, full disk, no usable
       temporary directory), if any *)
}.

Definition SM (A : Type) : Type := sup_state -> sup_state * (exc + A).

Definition sret {A} (a : A) : SM A := fun s => (s, inr a).
Definition sraise {A} (e : exc) : SM A := fun s => (s, inl e).
Definition sbind {A B} (m : SM A) (f : A -> SM B) : SM B :=
  fun s => match m s with
           | (s', inl e) => (s', inl e)
           | (s', inr a) => f a s'
           end.
Definition stry {A} (m : SM A) (h : exc -> SM A) : SM A :=
  fun s => match m s with
           | (s', inl e) => h e s'
           | ok => ok
           end.
(** [try: m finally: f]: an exception of [f] replaces the outcome of [m]. *)
Definition sfinally {A} (m : SM A) (f : SM unit) : SM A :=
  fun s => let (s1, r) := m s in
           match f s1 with
           | (s2, inl e) => (s2, inl e)
           | (s2, inr _) => (s2, r)
           end.

Declare Scope sm_scope.
Delimit Scope sm_scope with sm.
Notation "x <- m ;; f" := (sbind m (fun x => f))
  (at level 61, m at next level, right associativity) : sm_scope.
Notation "m ;; f" := (sbind m (fun _ : unit => f))
  (at level 61, right associativity) : sm_scope.

Definition modify (f : sup_state -> sup_state) : SM unit :=
  fun s => (f s, inr tt).

Definition with_fs (p : string) (c : option content) (s : sup_state) : sup_state :=
  SupState (fun q => if String.eqb q p then c else st_fs s q)
           (st_alive s) (st_pending s) (st_clock s) (st_trace s) (st_tmp_error s).
Definition with_alive (b : bool) (s : sup_state) : sup_state :=
  SupState (st_fs s) b (st_pending s) (st_clock s) (st_trace s) (st_tmp_error s).
Definition with_pending (o : option nat) (s : sup_state) : sup_state :=
  SupState (st_fs s) (st_alive s) o (st_clock s) (st_trace s) (st_tmp_error s).
Definition tick (n : nat) (s : sup_state) : sup_state :=
  SupState (st_fs s) (st_alive s) (st_pending s) (st_clock s + n) (st_trace s)
           (st_tmp_error s).
Definition log (ev : sevent) : SM unit :=
  modify (fun s => SupState (st_fs s) (st_alive s) (st_pending s) (st_clock s)
                            (st_trace s ++ [ev]) (st_tmp_error s)).

Definition path_exists (p : string) : SM bool :=
  fun s => (s, inr (match st_fs s p with Some _ => true | None => false end)).

Definition unlink (p : string) : SM unit :=
  fun s => match st_fs s p with
           | Some _ => ((log (SUnlink p) ;; modify (with_fs p None))%sm s)
           | None => (s, inl (Exn OSErr "No such file or directory"))
           end.

(** [NamedTemporaryFile(..., delete=False)]: an empty file at a fresh
    path, or the [OSError] of [mkstemp], which creates nothing. *)
Definition create_tmp (p : string) : SM unit :=
  fun s => match st_tmp_error s p with
           | Some msg => (s, inl (Exn OSErr msg))
           | None => (log (SMkTemp p) ;; modify (with_fs p (Some CEmpty)))%sm s
           end.

Definition spawn (spawn_ok : bool) : SM unit :=
  if spawn_ok then (log SSpawn ;; modify (with_alive true))%sm
  else sraise (Exn OSErr "process.start failed").

(** [process.join(timeout=timeout)] right after [start()]. *)
Definition join_deadline (timeout : nat) (child : child_run) (p : string)
  : SM unit :=
  (log (SJoin timeout) ;;
   match child with
   | ChildExits t _ art =>
       modify (fun s => tick (Nat.min t timeout)
                          (with_alive false (with_fs p (Some art) s)))
   | ChildHangs art _ _ => modify (fun s => tick timeout (with_fs p (Some art) s))
   end)%sm.

Definition is_alive : SM bool := fun s => (s, inr (st_alive s)).

Definition terminate (child : child_run) : SM unit :=
  (log STerminate ;;
   modify (with_pending (match child with
                         | ChildHangs _ d _ => d
                         | ChildExits _ _ _ => Some 0%nat
                         end)))%sm.

Definition kill (child : child_run) : SM unit :=
  (log SKill ;;
   modify (with_pending (match child with
                         | ChildHangs _ _ d => d
                         | ChildExits _ _ _ => Some 0%nat
                         end)))%sm.

(** [process.join(timeout=bound)] after a signal. *)
Definition join_bounded (bound : nat) : SM unit :=
  (log (SJoin bound) ;;
   modify (fun s =>
     if st_alive s then
       match st_pending s with
       | Some d => if (d <=? bound)%nat then tick d (with_alive false s)
                   else tick bound s
       | None => tick bound s
       end
     else s))%sm.

(** [open(p, 'r')] then [json.load]. *)
Definition read_json (p : string) : SM json :=
  (log (SRead p) ;;
   fun s => match st_fs s p with
            | Some (CDoc j) => (s, inr j)
            | Some _ => (s, inl (Exn JSONDecodeErr "Expecting value"))
            | None => (s, inl (Exn OSErr "No such file or directory"))
            end)%sm.

(** [result.get('success')]: [json.load] may return a non-dict. *)
Definition get_success (j : json) : SM (option json) :=
  match j with
  | JObj kvs => sret (lookup "success" kvs)
  | _ => sraise (Exn AttributeErr "object has no attribute 'get'")
  end.

(** [available] is [PYANNOTE_AVAILABLE]; [output_path] is the fresh name
    tempfile picks; [spawn_ok] says whether [Process(...)]/[start()]
    succeed; [child] is what the child process does.  [audio_file_path],
    [use_mps] and [batch_size] are only forwarded to the child. *)
Definition run_diarization_isolated (available : bool)
  (audio_file_path : string) (use_mps : bool) (batch_size : Z) (timeout : nat)
  (output_path : string) (spawn_ok : bool) (child : child_run)
  : SM (option json) :=
  (if negb available then sret None
   else
     create_tmp output_path ;;
     sfinally
       (stry
          (spawn spawn_ok ;;
           join_deadline timeout child output_path ;;
           alive <- is_alive ;;
           if alive then
             terminate child ;;
             join_bounded 5 ;;
             alive' <- is_alive ;;
             (if alive' then kill child ;; join_bounded 2 else sret tt) ;;
             ex <- path_exists output_path ;;
             (if ex then unlink output_path else sret tt) ;;
             sret None
           else
             (* a non-zero exit code is only printed *)
             ex <- path_exists output_path ;;
             if ex then
               stry
                 (result <- read_json output_path ;;
                  success <- get_success result ;;
                  if truthy success then sret (Some result) else sret None)
                 (fun e => match exc_cls e with
                           | JSONDecodeErr => sret None
                           | _ => sraise e
                           end)
             else sret None)
          (fun _ => sret None))
       (ex <- path_exists output_path ;;
        if ex then stry (unlink output_path) (fun _ => sret tt) else sret tt))%sm.

(** ** Observations on traces and payloads *)

(** The payloads written by [json.dump], in order. *)
Definition writes (tr : list event) : list json :=
  flat_map (fun ev => match ev with EvWrite _ j => [j] | _ => [] end) tr.

Definition infer_count (tr : list event) : nat :=
  length (filter (fun ev => match ev with EvInfer => true | _ => false end) tr).

Definition alloc_attempts (tr : list event) : nat :=
  length (filter (fun ev => match ev with EvTest TAlloc => true | _ => false end) tr).

Definition json_lookup (k : string) (j : json) : option json :=
  match j with JObj kvs => lookup k kvs | _ => None end.

Definition json_keys (j : json) : list string :=
  match j with JObj kvs => map fst kvs | _ => [] end.

Definition seg_speaker (j : json) : option json := json_lookup "speaker" j.

Definition str_lt (a b : string) : Prop := String.ltb a b = true.

(** Every statement of the MPS self-test runs without raising. *)
Definition selftest_ok (pr : mps_probe) : bool :=
  forallb (fun st => match step_raises pr st with None => true | Some _ => false end)
          [TAlloc; TMul; TDel; TEmptyCache; TGc].

(** The value the supervisor returns, read off the child's behaviour. *)
Definition supervisor_outcome (available spawn_ok : bool) (child : child_run)
  : option json :=
  if available && spawn_ok then
    match child with
    | ChildExits _ _ (CDoc (JObj kvs)) =>
        if truthy (lookup "success" kvs) then Some (JObj kvs) else None
    | _ => None
    end
  else None.

Definition dies_within (delay : option nat) (bound : nat) : bool :=
  match delay with Some d => (d <=? bound)%nat | None => false end.

(** A fresh supervisor state, used by the concrete runs below. *)
Definition sup_init : sup_state :=
  SupState (fun _ => None) false None 0 [] (fun _ => None).

(** A supervisor state in which no temporary file can be created. *)
Definition sup_no_tmp : sup_state :=
  SupState (fun _ => None) false None 0 []
    (fun _ => Some "[Errno 24] Too many open files").

Definition tmp_path : string := "/tmp/tmpk2x9_res.json".

(** The keys of the three payloads [diarize_isolated] can write. *)
Definition success_keys : list string :=
  ["success"; "speakers"; "segments"; "total_segments"; "device_used";
   "processing_time"].
Definition fallback_keys : list string :=
  ["success"; "speakers"; "segments"; "total_segments"; "device_used";
   "fallback_cpu"; "error"].

(** A payload of the primary success path (lines 127-134). *)
Definition primary_kind (j : json) : Prop :=
  json_keys j = success_keys /\ json_lookup "success" j = Some (JBool true) /\
  has_key "error" j = false.

(** A payload of the CPU fallback (lines 173-181) in the environment [env]:
    its [error] is the message of the memory [RuntimeError] raised in the
    [try] block, by the first inference or by launching ffmpeg. *)
Definition fallback_kind (env : worker_env) (j : json) : Prop :=
  json_keys j = fallback_keys /\ json_lookup "success" j = Some (JBool true) /\
  json_lookup "device_used" j = Some (JStr "cpu") /\
  json_lookup "fallback_cpu" j = Some (JBool true) /\
  has_key "processing_time" j = false /\
  exists e, (we_infer env 0 = Raise e \/ we_ffmpeg env = FfLaunchError e) /\
            is_runtime_error e = true /\ is_memory_message (exc_msg e) = true /\
            json_lookup "error" j = Some (JStr (exc_msg e)).

(** A failure payload (lines 202-205 and 53-56). *)
Definition failure_kind (j : json) : Prop :=
  json_keys j = ["success"; "error"] /\ json_lookup "success" j = Some (JBool false).

(** Concrete worker environments. *)
Definition tracks_ab : list turn :=
  [Turn 0 (12 # 10) "SPEAKER_01"; Turn (12 # 10) 3 "SPEAKER_00";
   Turn 3 4 "SPEAKER_01"].

(** Everything succeeds on MPS. *)
Definition env_nominal : worker_env :=
  WorkerEnv true None true None (FfExit 0) (fun _ => Ok tracks_ab) None (8 # 10).

(** ffmpeg exits with status 1. *)
Definition env_ffmpeg_fails : worker_env :=
  WorkerEnv true None true None (FfExit 1) (fun _ => Ok tracks_ab) None (8 # 10).

(** The MPS inference runs out of memory; the CPU retry succeeds. *)
Definition env_mps_oom : worker_env :=
  WorkerEnv true None true None (FfExit 0)
    (fun n => match n with
              | O => Raise (Exn RuntimeErr "MPS backend out of memory")
              | _ => Ok tracks_ab
              end) None (8 # 10).

(** The inference fails with an OSError about memory. *)
Definition env_os_memory : worker_env :=
  WorkerEnv true None true None (FfExit 0)
    (fun n => match n with
              | O => Raise (Exn OSErr "[Errno 12] Cannot allocate memory")
              | _ => Ok tracks_ab
              end) None (8 # 10).

Definition audio_in : string := "/tmp/tmpu1.wav".
Definition audio_conv : string := "/tmp/tmpu1_16k.wav".

(** ** [pyannote_mps_helper.create_pyannote_pipeline_safe] *)

(** Where the modules of a pipeline are: as [Pipeline.from_pretrained] left
    them, all on [d] once [pipeline.to(d)] returned, or partly moved to [d]
    when [pipeline.to(d)] raised. *)
Inductive placement : Type := Loaded | On (d : device) | Partial (d : device).

(** The attributes of the pipeline object the helper touches. *)
Record pipeline : Type := PipelineObj {
  pl_batch : option Z;        (* embedding_batch_size, when the attribute exists *)
  pl_place : placement
}.

(** What pyannote and torch do for the requested model. *)
Record pipeline_env : Type := PipelineEnv {
  pe_from_pretrained : option exc;       (* Pipeline.from_pretrained(...) raises *)
  pe_batch_attr : option Z;              (* its embedding_batch_size, if it has one *)
  pe_to_raises : device -> option exc;   (* pipeline.to(device) raises *)
  pe_seg_params : option (list device)
    (* the devices of pipeline._segmentation.model.parameters(), when the
       attributes _segmentation, model and parameters exist *)
}.

(** [pipeline.to(d)]. *)
Definition pipeline_to (pe : pipeline_env) (d : device) (p : pipeline)
  : M pipeline :=
  emit (EvToDevice d) ;;
  match pe_to_raises pe d with
  | Some e => raise e
  | None => ret (PipelineObj (pl_batch p) (On d))
  end.

(** The device check of lines 95-103: [next(iter(seg_model.parameters()))]
    raises [StopIteration] on a model without parameters; the comparison of
    the devices only prints. *)
Definition check_device (pe : pipeline_env) : M unit :=
  match pe_seg_params pe with
  | Some [] => raise (Exn OtherErr "StopIteration")
  | _ => ret tt
  end.

(** [model_name] and [use_auth_token] only reach [Pipeline.from_pretrained],
    whose effect is the oracle [pe_from_pretrained]. *)
Definition create_pyannote_pipeline_safe (pr : mps_probe) (pe : pipeline_env)
  (prefer_mps : bool) (embedding_batch_size : option Z) : M pipeline :=
  device <- get_safe_device prefer_mps true pr ;;
  match pe_from_pretrained pe with
  | Some e => raise e
  | None =>
      let batch :=
        match device, pe_batch_attr pe with
        | DevMPS, Some _ =>
            Some match embedding_batch_size with Some b => b | None => 16%Z end
        | _, b => b
        end in
      (* the object the [except] clause sees: partly moved when [to] raised,
         moved when the check raised *)
      let pipeline' := PipelineObj batch
                         match pe_to_raises pe device with
                         | Some _ => Partial device
                         | None => On device
                         end in
      try_except
        (p <- pipeline_to pe device (PipelineObj batch Loaded) ;;
         check_device pe ;;
         ret p)
        (fun _ =>
           match device with
           | DevMPS => pipeline_to pe DevCPU pipeline'
           | _ => ret pipeline'
           end)
  end.

(** ** [app.py]: the upload check and the diarization endpoint *)

Definition allowed_extensions : list string :=
  ["wav"; "mp3"; "m4a"; "flac"; "aac"; "ogg"].

(** [filename.rsplit('.', 1)[1]]; [None] for the [IndexError] of a name
    without a dot. *)
Definition rsplit_ext (filename : string) : option string :=
  match rfind "."%char filename with
  | Some i => Some (String.substring (S i) (String.length filename - S i) filename)
  | None => None
  end.

(** The [None] branch is not reached behind ['.' in filename]. *)
Definition allowed_file (filename : string) : bool :=
  contains "." filename &&
  match rsplit_ext filename with
  | Some ext => existsb (String.eqb (lower ext)) allowed_extensions
  | None => false
  end.

Record upload : Type := Upload {
  up_filename : string;        (* audio_file.filename *)
  up_save : option exc         (* audio_file.save(tmp.name) raises *)
}.

Record request : Type := Request {
  rq_audio : option upload;                (* request.files['audio'], if sent *)
  rq_form : list (string * string)         (* request.form, in order *)
}.

(** [request.form.get(k, default)]: the first value sent for [k]. *)
Definition form_get (k default : string) (form : list (string * string)) : string :=
  match find (fun kv => String.eqb (fst kv) k) form with
  | Some kv => snd kv
  | None => default
  end.

(** What the runtime does around one request. *)
Record app_env : Type := AppEnv {
  ae_int : string -> option Z;      (* int(s); None when it raises ValueError *)
  ae_int_error : string -> string;  (* the message of that ValueError *)
  ae_extensions_text : string;      (* the join of ALLOWED_EXTENSIONS, in set order *)
  ae_upload_path : string;          (* tmp.name, ending in _ + secure_filename(...) *)
  ae_elapsed : Q;                   (* time.time() - start_time *)
  ae_available : bool;              (* pyannote_isolated.PYANNOTE_AVAILABLE *)
  ae_output_path : string;          (* the result file the supervisor creates *)
  ae_spawn_ok : bool;               (* the supervisor's process starts *)
  ae_child : child_run              (* what the child process does *)
}.

(** A response: the status code and the body given to [jsonify]. *)
Definition response : Type := (Z * json)%type.

Definition error_body (msg : string) : json :=
  JObj [("success", JBool false); ("error", JStr msg)].

Definition dq : string := String "034"%char EmptyString.

Definition missing_audio_msg : string :=
  String.append "Fichier audio manquant. Utilisez le champ "
    (String.append dq (String.append "audio"
       (String.append dq " dans form-data."))).

(** Run [m], catching every exception. *)
Definition sattempt {A} (m : SM A) : SM (exc + A) :=
  fun s => let (s', r) := m s in (s', inr r).

(** [int(s)]. *)
Definition py_int (ae : app_env) (s : string) : SM Z :=
  match ae_int ae s with
  | Some z => sret z
  | None => sraise (Exn ValueErr (ae_int_error ae s))
  end.

(** [audio_file.save(tmp.name)]; an audio file is not a JSON document. *)
Definition save_upload (up : upload) (p : string) : SM unit :=
  match up_save up with
  | Some e => sraise e
  | None => modify (with_fs p (Some CMalformed))
  end.

(** [result.get(k, default)]. *)
Definition get_or (kvs : list (string * json)) (k : string) (default : json) : json :=
  match lookup k kvs with Some v => v | None => default end.

Definition success_response (elapsed : Q) (kvs : list (string * json)) : response :=
  (200%Z,
   JObj ([("success", JBool true); ("request_time", JFloat elapsed);
          ("processing_time", get_or kvs "processing_time" (JInt 0));
          ("speakers", get_or kvs "speakers" (JArr []));
          ("segments", get_or kvs "segments" (JArr []));
          ("total_segments", get_or kvs "total_segments" (JInt 0));
          ("device_used", get_or kvs "device_used" (JStr "unknown"));
          ("fallback_cpu", get_or kvs "fallback_cpu" (JBool false))]
         ++ if truthy (lookup "fallback_cpu" kvs)
            then [("warning", JStr "OOM sur MPS, traité sur CPU")] else [])).

Definition failure_response (elapsed : Q) (error_msg : json) : response :=
  (500%Z, JObj [("success", JBool false); ("error", error_msg);
                ("request_time", JFloat elapsed)]).

(** Lines 134-161: [if result and result.get('success')]; [.get] on a value
    that is not a dict raises [AttributeError]. *)
Definition respond (elapsed : Q) (result : option json) : SM response :=
  if truthy result then
    match result with
    | Some (JObj kvs) =>
        if truthy (lookup "success" kvs) then sret (success_response elapsed kvs)
        else sret (failure_response elapsed (get_or kvs "error" (JStr "Erreur inconnue")))
    | _ => sraise (Exn AttributeErr "object has no attribute 'get'")
    end
  else sret (failure_response elapsed (JStr "Timeout ou erreur inconnue")).

(** The body of lines 182-186. *)
Definition exception_response (elapsed : Q) (msg : string) : response :=
  (500%Z, JObj [("success", JBool false); ("error", JStr msg);
                ("request_time", JFloat elapsed)]).

(** The [finally] clause of lines 163-170 once [temp_path] is set. *)
Definition remove_upload (temp_path : string) : SM unit :=
  if String.eqb temp_path "" then sret tt
  else (ex <- path_exists temp_path ;;
        if ex then stry (unlink temp_path) (fun _ => sret tt) else sret tt)%sm.

(** Lines 172-186: [except ValueError], then [except Exception]. *)
Definition diarize_error_response (ae : app_env) (e : exc) : response :=
  match exc_cls e with
  | ValueErr | JSONDecodeErr =>   (* json.JSONDecodeError is a ValueError *)
      (400%Z, error_body (String.append "Erreur de paramètre: " (exc_msg e)))
  | _ => exception_response (ae_elapsed ae) (exc_msg e)
  end.

(** [POST /api/v1/diarize].  [timeout] reaches [process.join], which
    treats a negative bound as 0. *)
Definition diarize (ae : app_env) (rq : request) : SM response :=
  stry
    (match rq_audio rq with
     | None => sret (400%Z, error_body missing_audio_msg)
     | Some audio_file =>
         if String.eqb (up_filename audio_file) "" then
           sret (400%Z, error_body "Nom de fichier vide")
         else if negb (allowed_file (up_filename audio_file)) then
           sret (400%Z, error_body
                          (String.append "Extension non autorisée. Extensions autorisées: "
                             (ae_extensions_text ae)))
         else
           let form := rq_form rq in
           let use_mps := String.eqb (lower (form_get "use_mps" "true" form)) "true" in
           batch_size <- py_int ae (form_get "batch_size" "16" form) ;;
           timeout <- py_int ae (form_get "timeout" "600" form) ;;
           create_tmp (ae_upload_path ae) ;;
           saved <- sattempt (save_upload audio_file (ae_upload_path ae)) ;;
           match saved with
           | inl e => sraise e  (* temp_path is still None: the finally does nothing *)
           | inr _ =>
               sfinally
                 (result <- run_diarization_isolated (ae_available ae)
                              (ae_upload_path ae) use_mps batch_size
                              (Z.to_nat timeout) (ae_output_path ae)
                              (ae_spawn_ok ae) (ae_child ae) ;;
                  respond (ae_elapsed ae) result)
                 (remove_upload (ae_upload_path ae))
           end
     end)%sm
    (fun e => sret (diarize_error_response ae e)).


(** A request whose upload passes the checks of lines 80-103. *)
Definition accepted_upload (ae : app_env) (rq : request) (up : upload) : bool :=
  negb (String.eqb (up_filename up) "") && allowed_file (up_filename up) &&
  match ae_int ae (form_get "batch_size" "16" (rq_form rq)),
        ae_int ae (form_get "timeout" "600" (rq_form rq)) with
  | Some _, Some _ => true
  | _, _ => false
  end.

(** Concrete runs of the endpoint. *)
Definition int_demo (s : string) : option Z :=
  if String.eqb s "16" then Some 16%Z
  else if String.eqb s "600" then Some 600%Z
  else None.

Definition ae_fallback : app_env :=
  AppEnv int_demo (String.append "invalid literal for int() with base 10: ")
    "wav, mp3, m4a, flac, aac, ogg" "/tmp/tmpa1b2_talk.wav" (3 # 2) true tmp_path
    true (ChildExits 3 0 (CDoc (fallback_payload (speakers_of tracks_ab)
                                  (speaker_segments tracks_ab)
                                  "MPS backend out of memory"))).

Definition upload_ok : upload := Upload "talk.wav" None.
Definition upload_disk_full : upload :=
  Upload "talk.wav" (Some (Exn OSErr "No space left on device")).

Definition rq_ok : request := Request (Some upload_ok) [].

(** The upload's temporary file can be created, the result file cannot. *)
Definition sup_result_disk_full : sup_state :=
  SupState (fun _ => None) false None 0 []
    (fun q => if String.eqb q tmp_path then Some "[Errno 28] No space left on device"
              else None).
Definition rq_bad_batch : request :=
  Request (Some upload_ok) [("batch_size", "sixteen")].
Definition rq_disk_full : request := Request (Some upload_disk_full) [].
Definition rq_no_audio : request := Request None [("use_mps", "false")].

(** The response [diarize] gives for what the supervisor returned. *)
Definition endpoint_answer (elapsed : Q) (outcome : option json) : response :=
  match outcome with
  | Some (JObj kvs) => success_response elapsed kvs
  | _ => failure_response elapsed (JStr "Timeout ou erreur inconnue")
  end.

(** Concrete runs of the pipeline factory. *)
Definition probe_ok : mps_probe := MpsProbe true true (fun _ => None).

Definition pe_nominal : pipeline_env :=
  PipelineEnv None (Some 32%Z) (fun _ => None) (Some [DevMPS]).

(** Moving the pipeline to CPU raises. *)
Definition pe_cpu_move_fails : pipeline_env :=
  PipelineEnv None (Some 32%Z)
    (fun d => match d with
              | DevCPU => Some (Exn RuntimeErr "CUDA error: device-side assert triggered")
              | _ => None
              end) (Some [DevCPU]).

Ltac sup_simpl :=
  repeat (cbv -[String.eqb Nat.min Nat.leb app Nat.add truthy lookup st_tmp_error];
          cbn [st_tmp_error];
          rewrite ?String.eqb_refl;
          repeat match goal with H : st_tmp_error _ _ = _ |- _ => rewrite H end).

Ltac use_leb :=
  repeat match goal with
         | H : (?a <=? ?b)%nat = _ |- context [(?a <=? ?b)%nat] => rewrite H
         end.

Ltac hang_cases td kd :=
  let d := fresh "d" in let d' := fresh "d'" in
  destruct td as [d|]; [destruct (d <=? 5)%nat eqn:?|];
  (destruct kd as [d'|]; [destruct (d' <=? 2)%nat eqn:?|]);
  sup_simpl; use_leb; sup_simpl; use_leb; sup_simpl.

Ltac sup_cases child td kd :=
  destruct child as [t code art | art td kd];
  [ destruct art as [| | j];
    [ sup_simpl | sup_simpl
    | destruct j; sup_simpl; try (destruct (truthy _); sup_simpl) ]
  | hang_cases td kd ].

(** ** Sorting speaker labels *)

Lemma ascii_compare_refl a : Ascii.compare a a = Eq.
Proof. unfold Ascii.compare. apply N.compare_refl. Qed.

Lemma ascii_compare_lt_trans a b c :
  Ascii.compare a b = Lt -> Ascii.compare b c = Lt -> Ascii.compare a c = Lt.
Proof. unfold Ascii.compare. rewrite !N.compare_lt_iff. lia. Qed.

Lemma string_compare_lt_trans s1 s2 s3 :
  String.compare s1 s2 = Lt -> String.compare s2 s3 = Lt ->
  String.compare s1 s3 = Lt.
Proof.
  revert s2 s3.
  induction s1 as [|a s1 IH]; intros [|b s2] [|c s3]; cbn; intros H1 H2;
    try discriminate; auto.
  destruct (Ascii.compare a b) eqn:Eab; try discriminate;
  destruct (Ascii.compare b c) eqn:Ebc; try discriminate.
  - apply Ascii.compare_eq_iff in Eab, Ebc. subst.
    rewrite ascii_compare_refl. eauto.
  - apply Ascii.compare_eq_iff in Eab. subst. now rewrite Ebc.
  - apply Ascii.compare_eq_iff in Ebc. subst. now rewrite Eab.
  - now rewrite (ascii_compare_lt_trans _ _ _ Eab Ebc).
Qed.

Lemma str_lt_compare a b : str_lt a b <-> String.compare a b = Lt.
Proof.
  unfold str_lt, String.ltb. destruct (String.compare a b); split; congruence.
Qed.

Lemma str_lt_trans a b c : str_lt a b -> str_lt b c -> str_lt a c.
Proof. rewrite !str_lt_compare. apply string_compare_lt_trans. Qed.

Lemma str_lt_trichotomy a b : a = b \/ str_lt a b \/ str_lt b a.
Proof.
  rewrite !str_lt_compare. rewrite (String.compare_antisym b a).
  destruct (String.compare a b) eqn:E; auto.
  left. now apply String.compare_eq_iff.
Qed.

Lemma insert_str_perm x l : Permutation (insert_str x l) (x :: l).
Proof.
  induction l as [|y l IH]; cbn; [reflexivity|].
  destruct (String.ltb y x); [|reflexivity].
  rewrite IH. apply perm_swap.
Qed.

Lemma sorted_strings_perm l : Permutation (sorted_strings l) l.
Proof.
  induction l as [|x l IH]; cbn; [reflexivity|].
  rewrite insert_str_perm. now apply perm_skip.
Qed.

Lemma insert_str_hdrel y x l :
  str_lt y x -> HdRel str_lt y l -> HdRel str_lt y (insert_str x l).
Proof.
  intros Hyx Hl. destruct l as [|z l]; cbn; [now constructor|].
  destruct (String.ltb z x); constructor; [now inversion Hl | exact Hyx].
Qed.

Lemma insert_str_sorted x l :
  Sorted str_lt l -> ~ In x l -> Sorted str_lt (insert_str x l).
Proof.
  induction l as [|y l IH]; intros Hs Hx; cbn; [now repeat constructor|].
  inversion Hs as [|? ? Hl Hhd]; subst.
  destruct (String.ltb y x) eqn:E.
  - constructor.
    + apply IH; [exact Hl | intros H; apply Hx; now right].
    + now apply insert_str_hdrel.
  - constructor; [exact Hs|]. constructor.
    destruct (str_lt_trichotomy x y) as [Heq|[Hlt|Hgt]].
    + exfalso. apply Hx. now left.
    + exact Hlt.
    + unfold str_lt in Hgt. congruence.
Qed.

Lemma sorted_strings_sorted l : NoDup l -> Sorted str_lt (sorted_strings l).
Proof.
  induction l as [|x l IH]; intros Hnd; cbn; [constructor|].
  inversion Hnd; subst.
  apply insert_str_sorted; [now apply IH|].
  intros H. apply (Permutation_in _ (sorted_strings_perm l)) in H. contradiction.
Qed.

(** What [sorted(list(set(...)))] promises about the speakers of a payload. *)
Definition speakers_spec (speakers : list string) (segs : list json) : Prop :=
  StronglySorted str_lt speakers /\ NoDup speakers /\
  (forall x, In x speakers <-> In (Some (JStr x)) (map seg_speaker segs)).

Lemma speakers_of_spec tracks :
  speakers_spec (speakers_of tracks) (speaker_segments tracks).
Proof.
  unfold speakers_spec, speakers_of. split; [|split].
  - apply Sorted_StronglySorted; [exact str_lt_trans|].
    apply sorted_strings_sorted, NoDup_nodup.
  - eapply Permutation_NoDup; [symmetry; apply sorted_strings_perm|].
    apply NoDup_nodup.
  - intros x.
    assert (Hp : In x (sorted_strings (nodup string_dec (map turn_label tracks)))
                 <-> In x (map turn_label tracks)).
    { split; intros H.
      - apply (nodup_In string_dec).
        eapply Permutation_in; [apply sorted_strings_perm | exact H].
      - eapply Permutation_in; [symmetry; apply sorted_strings_perm|].
        now apply nodup_In. }
    rewrite Hp. unfold speaker_segments. rewrite map_map, !in_map_iff.
    split; intros [t [Ht Hin]]; exists t; split; auto.
    + now subst.
    + now inversion Ht.
Qed.

(** ** Case analysis on the worker *)

Ltac worker_cases_eqn :=
  repeat (cbv -[speakers_of speaker_segments is_memory_message is_runtime_error
                fallback_payload success_payload failure_payload];
          match goal with
          | |- context [match ?x with _ => _ end] =>
              lazymatch x with
              | is_memory_message _ => destruct x eqn:?
              | is_runtime_error ?e =>
                  tryif is_var e then destruct x eqn:?
                  else let y := eval cbv in x in change x with y
              | ?f _ => is_var f; destruct x eqn:?
              | _ => is_var x; destruct x
              end
          end).

Ltac worker_cases :=
  repeat (cbv -[speakers_of speaker_segments is_memory_message
                fallback_payload success_payload failure_payload];
          match goal with
          | |- context [match ?x with _ => _ end] =>
              lazymatch x with
              | is_memory_message _ => destruct x
              | ?f _ => is_var f; destruct x
              | _ => is_var x; destruct x
              end
          end).

Lemma diarize_from_path_writes env audio out cp d dstr :
  let w := writes (trace_of (diarize_from_path env audio out cp d dstr)) in
  w = [] \/
  (exists tr, w = [success_payload (speakers_of tr) (speaker_segments tr) dstr
                     (we_elapsed env)]) \/
  (exists tr m, w = [fallback_payload (speakers_of tr) (speaker_segments tr) m]) \/
  (exists m, w = [failure_payload m]).
Proof.
  destruct env as [av cpe mps pdev ff inf tocpu el]; cbv zeta.
  unfold diarize_from_path.
  worker_cases;
  first [left; reflexivity | right; left; eexists; reflexivity
        | right; right; left; do 2 eexists; reflexivity
        | right; right; right; eexists; reflexivity].
Qed.

(** The same, with the exception whose message the fallback payload
    carries. *)
Lemma diarize_from_path_writes_fallback env audio out cp d dstr :
  let w := writes (trace_of (diarize_from_path env audio out cp d dstr)) in
  w = [] \/
  (exists tr, w = [success_payload (speakers_of tr) (speaker_segments tr) dstr
                     (we_elapsed env)]) \/
  (exists tr e, (we_infer env 0 = Raise e \/ we_ffmpeg env = FfLaunchError e) /\
                is_runtime_error e = true /\ is_memory_message (exc_msg e) = true /\
                w = [fallback_payload (speakers_of tr) (speaker_segments tr)
                       (exc_msg e)]) \/
  (exists m, w = [failure_payload m]).
Proof.
  destruct env as [av cpe mps pdev ff inf tocpu el]; cbv zeta.
  cbn [we_infer we_ffmpeg we_elapsed].
  unfold diarize_from_path.
  worker_cases_eqn;
  first [left; reflexivity | right; left; eexists; reflexivity
        | right; right; left; do 2 eexists;
          split; [first [left; reflexivity | left; eassumption | right; reflexivity]|];
          split; [first [assumption | reflexivity]|]; split; [assumption|]; reflexivity
        | right; right; right; eexists; reflexivity].
Qed.

(** When [NamedTemporaryFile] raises, [run_diarization_isolated] does
    nothing else and the [OSError] propagates. *)
Lemma run_diarization_isolated_tmp_error audio use_mps bs timeout p spawn_ok
  child s msg :
  st_tmp_error s p = Some msg ->
  run_diarization_isolated true audio use_mps bs timeout p spawn_ok child s
  = (s, inl (Exn OSErr msg)).
Proof.
  intros T. unfold run_diarization_isolated. cbn [negb].
  unfold sbind at 1, create_tmp. rewrite T. reflexivity.
Qed.

(** * Claims *)

(** ** The supervisor *)

(** C1 (amended): [run_diarization_isolated] raises only the [OSError] of
    [NamedTemporaryFile] (line 239, before the [try]).  Otherwise it returns
    the parsed artifact exactly when the child exited before the deadline
    leaving a JSON object whose [success] is truthy, and [None] in every
    other case (failure artifact, empty or malformed artifact, non-object
    JSON, timeout, spawn error, helper unavailable). *)
Theorem run_diarization_isolated_outcome (available : bool) audio use_mps bs
  timeout p spawn_ok child s :
  snd (run_diarization_isolated available audio use_mps bs timeout p spawn_ok
         child s)
  = match (if available then st_tmp_error s p else None) with
    | Some msg => inl (Exn OSErr msg)
    | None => inr (supervisor_outcome available spawn_ok child)
    end.
Proof.
  destruct available; [|reflexivity].
  destruct (st_tmp_error s p) as [msg|] eqn:T; [sup_simpl; reflexivity|].
  destruct spawn_ok.
  - destruct child as [t code art | art td kd].
    + destruct art as [| | j]; sup_simpl; try reflexivity.
      destruct j; sup_simpl; try reflexivity.
      destruct (truthy _); sup_simpl; reflexivity.
    + hang_cases td kd; reflexivity.
  - sup_simpl. reflexivity.
Qed.

(** C1 (counterexample): a failure artifact carrying a reason, a timeout
    and a crash without artifact all produce the same value [None]: the
    variants are not distinguishable and the reason is not returned.  And
    when no temporary file can be created, the supervisor returns no
    outcome at all: the [OSError] propagates to the caller. *)
Lemma run_diarization_isolated_outcomes_collapse :
  (snd (run_diarization_isolated true "/tmp/in.wav" true 16 600 tmp_path true
          (ChildExits 3 0 (CDoc (failure_payload "boom"))) sup_init)
   = inr None) /\
  (snd (run_diarization_isolated true "/tmp/in.wav" true 16 600 tmp_path true
          (ChildHangs CEmpty None None) sup_init)
   = inr None) /\
  (snd (run_diarization_isolated true "/tmp/in.wav" true 16 600 tmp_path true
          (ChildExits 3 (-9) CEmpty) sup_init)
   = inr None) /\
  (snd (run_diarization_isolated true "/tmp/in.wav" true 16 600 tmp_path true
          (ChildExits 3 0 (CDoc (failure_payload "boom"))) sup_no_tmp)
   = inl (Exn OSErr "[Errno 24] Too many open files")).
Proof. vm_compute. repeat split. Qed.

(** C3 (amended): when the child is still running at the deadline, the
    supervisor calls [terminate], waits at most 5 s, calls [kill] and waits
    at most 2 s only if the child is still alive, removes the result file and
    returns [None] (the value of every other failure), no later than
    [timeout + 7] seconds after it started; the child is dead on return
    exactly when it died within one of the two bounded waits.  (A child
    exists only once the result file has been created.) *)
Theorem run_diarization_isolated_timeout audio use_mps bs timeout p art td kd s :
  st_tmp_error s p = None ->
  let r := run_diarization_isolated true audio use_mps bs timeout p true
             (ChildHangs art td kd) s in
  snd r = inr None /\
  st_trace (fst r)
  = st_trace s ++ [SMkTemp p; SSpawn; SJoin timeout; STerminate; SJoin 5]
      ++ (if dies_within td 5 then [] else [SKill; SJoin 2]) ++ [SUnlink p] /\
  (st_clock (fst r) <= st_clock s + timeout + 7)%nat /\
  st_fs (fst r) p = None /\
  (st_alive (fst r) = false <-> dies_within td 5 = true \/ dies_within kd 2 = true).
Proof.
  intros Htmp. cbv zeta.
  hang_cases td kd;
  (repeat split); rewrite <- ?app_assoc; try reflexivity;
  repeat match goal with H : (_ <=? _)%nat = true |- _ => apply Nat.leb_le in H end;
  try lia; intuition congruence.
Qed.

Lemma run_diarization_isolated_timeout_witness :
  st_tmp_error sup_init tmp_path = None /\
  st_trace (fst (run_diarization_isolated true "/tmp/in.wav" true 16 600 tmp_path
                   true (ChildHangs CEmpty (Some 2%nat) None) sup_init))
  = [SMkTemp tmp_path; SSpawn; SJoin 600; STerminate; SJoin 5; SUnlink tmp_path].
Proof.
  split; [reflexivity|].
  exact (proj1 (proj2 (run_diarization_isolated_timeout "/tmp/in.wav" true 16 600
                         tmp_path CEmpty (Some 2%nat) None sup_init eq_refl))).
Defined.

(** C3 (counterexample): a child that ignores SIGTERM and is not reaped
    within 2 s of SIGKILL is still alive when the supervisor returns, and the
    timeout yields the same [None] as a failure artifact. *)
Lemma run_diarization_isolated_timeout_child_survives :
  st_alive (fst (run_diarization_isolated true "/tmp/in.wav" true 16 600
                   tmp_path true (ChildHangs CEmpty None (Some 30%nat)) sup_init))
  = true /\
  snd (run_diarization_isolated true "/tmp/in.wav" true 16 600 tmp_path true
         (ChildHangs CEmpty None (Some 30%nat)) sup_init)
  = snd (run_diarization_isolated true "/tmp/in.wav" true 16 600 tmp_path true
           (ChildExits 3 0 (CDoc (failure_payload "boom"))) sup_init).
Proof. vm_compute. split; reflexivity. Qed.

(** C4: whatever the child does and whether or not spawning succeeds, the
    result file at the fresh temporary path does not exist once
    [run_diarization_isolated] returns. *)
Theorem run_diarization_isolated_removes_artifact available audio use_mps bs
  timeout p spawn_ok child s :
  st_fs s p = None ->
  st_fs (fst (run_diarization_isolated available audio use_mps bs timeout p
                spawn_ok child s)) p = None.
Proof.
  intros Hfresh.
  destruct available; [|exact Hfresh].
  destruct (st_tmp_error s p) as [msg|] eqn:T;
    [rewrite (run_diarization_isolated_tmp_error _ _ _ _ _ _ _ _ _ T); exact Hfresh|].
  destruct spawn_ok.
  - destruct child as [t code art | art td kd].
    + destruct art as [| | j]; sup_simpl; try reflexivity.
      destruct j; sup_simpl; try reflexivity.
      destruct (truthy _); sup_simpl; reflexivity.
    + hang_cases td kd; reflexivity.
  - sup_simpl. reflexivity.
Qed.

Lemma run_diarization_isolated_removes_artifact_witness :
  st_fs sup_init tmp_path = None /\
  st_fs (fst (run_diarization_isolated true "/tmp/in.wav" true 16 600 tmp_path
                false (ChildExits 3 0 CEmpty) sup_init)) tmp_path = None.
Proof.
  split; [reflexivity|].
  apply run_diarization_isolated_removes_artifact. reflexivity.
Defined.

(** C10: when the helper module is unavailable the supervisor returns
    [None] and leaves its state untouched: no temporary file, no process,
    no trace. *)
Theorem run_diarization_isolated_unavailable audio use_mps bs timeout p
  spawn_ok child s :
  run_diarization_isolated false audio use_mps bs timeout p spawn_ok child s
  = (s, inr None).
Proof. reflexivity. Qed.

(** ** The device selector *)

(** C6: [get_safe_device] never raises; it returns MPS exactly when MPS is
    preferred, the backend exists, it reports itself available and every
    statement of the single self-test runs without raising, and CPU
    otherwise (with a warning when the self-test raised); the allocation of
    the self-test is attempted at most once. *)
Theorem get_safe_device_spec prefer_mps fallback_to_cpu pr :
  result_of (get_safe_device prefer_mps fallback_to_cpu pr)
  = inr (if prefer_mps && has_mps_backend pr && mps_is_available pr
            && selftest_ok pr then DevMPS else DevCPU) /\
  (alloc_attempts (trace_of (get_safe_device prefer_mps fallback_to_cpu pr))
   <= 1)%nat /\
  (In EvWarn (trace_of (get_safe_device prefer_mps fallback_to_cpu pr))
   <-> prefer_mps && has_mps_backend pr && mps_is_available pr
       && negb (selftest_ok pr) = true).
Proof.
  destruct pr as [has avail raises];
    unfold selftest_ok, get_safe_device, test_step;
    cbn [step_raises has_mps_backend mps_is_available].
  destruct prefer_mps, has, avail; cbn;
    try (repeat split; [lia | intros []| discriminate]).
  destruct (raises TAlloc), (raises TMul), (raises TDel), (raises TEmptyCache),
    (raises TGc), fallback_to_cpu; cbn;
    repeat split; try lia; intuition discriminate.
Qed.

(** ** The memory-managed execution wrapper *)

(** C8 (amended): [process_with_memory_management] clears the device cache
    (MPS or CUDA, nothing on CPU) and collects garbage before the call; it
    does so again after the call only when the call returns, and re-raises
    the call's exception without the second clean-up. *)
Theorem process_with_memory_management_trace d o :
  trace_of (process_with_memory_management (pipeline_call o) d)
  = trace_of (cache_clear d) ++ [EvGc; EvInfer]
      ++ match o with
         | Ok _ => trace_of (cache_clear d) ++ [EvGc]
         | Raise _ => []
         end /\
  result_of (process_with_memory_management (pipeline_call o) d)
  = match o with Ok r => inr r | Raise e => inl e end.
Proof. destruct d, o; split; reflexivity. Qed.

(** C8 (counterexample): an MPS out-of-memory error leaves the wrapper with
    no cache clear and no garbage collection after the call. *)
Lemma process_with_memory_management_no_cleanup_on_error :
  trace_of (process_with_memory_management
              (pipeline_call (Raise (Exn RuntimeErr "MPS backend out of memory")))
              DevMPS)
  = [EvEmptyCache DevMPS; EvGc; EvInfer].
Proof. reflexivity. Qed.

(** ** The worker *)

(** C2 (failing input): on a nominal run, pipeline built and ffmpeg and the
    inference ready to succeed, [Path(audio).with_suffix('_16k.wav')] raises
    [ValueError], which [except RuntimeError] does not catch: the worker
    writes nothing and dies.  Past that line, a non-zero ffmpeg exit raises
    [CalledProcessError], which escapes the same way. *)
Lemma diarize_isolated_no_artifact :
  writes (trace_of (diarize_isolated env_nominal audio_in tmp_path true 16)) = [] /\
  result_of (diarize_isolated env_nominal audio_in tmp_path true 16)
  = inl (value_error "Invalid suffix '_16k.wav'") /\
  writes (trace_of (diarize_from_path env_ffmpeg_fails audio_in tmp_path
                      audio_conv DevMPS "mps:0")) = [] /\
  result_of (diarize_from_path env_ffmpeg_fails audio_in tmp_path audio_conv
               DevMPS "mps:0")
  = inl (Exn CalledProcessErr "returned non-zero exit status").
Proof. vm_compute. repeat split. Qed.

(** Whatever the environment, [diarize_isolated] as written only ever writes
    failure payloads: every run that gets past pipeline construction stops
    at [with_suffix]. *)
Lemma diarize_isolated_writes_only_failures env audio out use_mps bs :
  Forall (fun j => json_lookup "success" j = Some (JBool false))
    (writes (trace_of (diarize_isolated env audio out use_mps bs))).
Proof.
  destruct env as [av cpe mps pdev ff inf tocpu el].
  unfold diarize_isolated.
  worker_cases; repeat constructor.
Qed.

(** C5 (amended): after a successful conversion, let the inference raise an
    exception [e] whose lower-cased message contains "memory". If [e] is a
    [RuntimeError], the worker moves the pipeline to CPU and calls it once
    more (never a third time); if that succeeds it writes and returns one
    payload with success=true, device_used="cpu" and fallback_cpu=true, and
    otherwise it writes one failure payload and returns [None]. If [e] has
    any other type, there is no CPU retry: the pipeline was called once, it
    is not moved to CPU, nothing is written and [e] propagates. *)
Theorem diarize_from_path_memory_fallback env audio out cp d dstr e :
  we_ffmpeg env = FfExit 0 ->
  we_infer env 0 = Raise e ->
  is_memory_message (exc_msg e) = true ->
  let r := diarize_from_path env audio out cp d dstr in
  if is_runtime_error e then
    infer_count (trace_of r)
    = (match we_to_cpu env with None => 2 | Some _ => 1 end)%nat /\
    In (EvToDevice DevCPU) (trace_of r) /\
    match we_to_cpu env, we_infer env 1 with
    | None, Ok _ =>
        exists j, writes (trace_of r) = [j] /\ result_of r = inr (Some j) /\
          json_lookup "success" j = Some (JBool true) /\
          json_lookup "device_used" j = Some (JStr "cpu") /\
          json_lookup "fallback_cpu" j = Some (JBool true)
    | _, _ =>
        exists err, writes (trace_of r) = [failure_payload err] /\
          result_of r = inr None
    end
  else
    infer_count (trace_of r) = 1%nat /\
    ~ In (EvToDevice DevCPU) (trace_of r) /\
    writes (trace_of r) = [] /\
    result_of r = inl e.
Proof.
  destruct env as [av cpe mps pdev ff inf tocpu el]; cbn [we_ffmpeg we_infer we_to_cpu].
  intros Hff Hinf Hmem; subst ff; cbv zeta.
  destruct e as [c m]; cbn [exc_msg] in Hmem.
  unfold diarize_from_path.
  destruct c, d; cbv -[speakers_of speaker_segments is_memory_message
                        fallback_payload success_payload failure_payload];
  rewrite Hinf; cbv -[speakers_of speaker_segments is_memory_message
                      fallback_payload success_payload failure_payload];
  first
    [ rewrite Hmem;
      destruct tocpu, (inf 1%nat);
      cbv -[speakers_of speaker_segments is_memory_message
            fallback_payload success_payload failure_payload];
      repeat split; auto 10;
      first [ eexists; repeat split; reflexivity
            | eexists; split; reflexivity ]
    | split; [reflexivity|];
      split; [intro H; repeat (destruct H as [H|H]; [discriminate H|]); exact H|];
      split; reflexivity ].
Qed.

Lemma diarize_from_path_memory_fallback_witness :
  we_ffmpeg env_mps_oom = FfExit 0 /\
  we_infer env_mps_oom 0 = Raise (Exn RuntimeErr "MPS backend out of memory") /\
  is_memory_message "MPS backend out of memory" = true /\
  infer_count (trace_of (diarize_from_path env_mps_oom audio_in tmp_path audio_conv
                           DevMPS "mps:0")) = 2%nat.
Proof.
  split; [reflexivity|]. split; [reflexivity|]. split; [vm_compute; reflexivity|].
  exact (proj1 (diarize_from_path_memory_fallback env_mps_oom audio_in tmp_path
                  audio_conv DevMPS "mps:0" (Exn RuntimeErr "MPS backend out of memory")
                  eq_refl eq_refl eq_refl)).
Defined.

(** C5 (counterexample): an inference error whose message contains
    "memory" but that is an [OSError] triggers no CPU retry: the pipeline is
    called once, never moved to CPU, nothing is written and the error
    escapes. *)
Lemma diarize_from_path_os_memory_error_no_retry :
  is_memory_message "[Errno 12] Cannot allocate memory" = true /\
  infer_count (trace_of (diarize_from_path env_os_memory audio_in tmp_path
                           audio_conv DevMPS "mps:0")) = 1%nat /\
  ~ In (EvToDevice DevCPU)
      (trace_of (diarize_from_path env_os_memory audio_in tmp_path audio_conv
                   DevMPS "mps:0")) /\
  writes (trace_of (diarize_from_path env_os_memory audio_in tmp_path audio_conv
                      DevMPS "mps:0")) = [] /\
  result_of (diarize_from_path env_os_memory audio_in tmp_path audio_conv
               DevMPS "mps:0")
  = inl (Exn OSErr "[Errno 12] Cannot allocate memory").
Proof.
  vm_compute. split; [reflexivity|]. split; [reflexivity|].
  split; [intros H; repeat (destruct H as [H|H]; [discriminate H|]); exact H|].
  split; reflexivity.
Qed.

(** What a success payload must satisfy: [total_segments] is the length of
    [segments] and [speakers] lists each speaker of [segments] once, in
    increasing order. *)
Definition success_shape (j : json) : Prop :=
  exists speakers segs,
    json_lookup "speakers" j = Some (json_strs speakers) /\
    json_lookup "segments" j = Some (JArr segs) /\
    json_lookup "total_segments" j = Some (JInt (Z.of_nat (length segs))) /\
    speakers_spec speakers segs.

Lemma success_payload_shape tracks dstr el :
  success_shape (success_payload (speakers_of tracks) (speaker_segments tracks)
                   dstr el).
Proof.
  exists (speakers_of tracks), (speaker_segments tracks).
  split; [reflexivity|]. split; [reflexivity|]. split; [reflexivity|].
  apply speakers_of_spec.
Qed.

Lemma fallback_payload_shape tracks m :
  success_shape (fallback_payload (speakers_of tracks) (speaker_segments tracks) m).
Proof.
  exists (speakers_of tracks), (speaker_segments tracks).
  split; [reflexivity|]. split; [reflexivity|]. split; [reflexivity|].
  apply speakers_of_spec.
Qed.

(** C7: every payload with success=true that the worker writes, on the
    primary path or on the CPU fallback path, has [total_segments] equal to
    the length of [segments] and [speakers] equal to the speakers of
    [segments], each once, in increasing lexicographic order. *)
Theorem diarize_from_path_success_consistent env audio out cp d dstr j :
  In j (writes (trace_of (diarize_from_path env audio out cp d dstr))) ->
  json_lookup "success" j = Some (JBool true) ->
  success_shape j.
Proof.
  intros Hin Hs.
  destruct (diarize_from_path_writes env audio out cp d dstr)
    as [W|[[tr W]|[[tr [m W]]|[m W]]]]; rewrite W in Hin; cbn in Hin;
    [contradiction | | |]; destruct Hin as [<-|[]].
  - apply success_payload_shape.
  - apply fallback_payload_shape.
  - discriminate Hs.
Qed.

Lemma diarize_from_path_success_consistent_witness :
  success_shape (success_payload (speakers_of tracks_ab)
                   (speaker_segments tracks_ab) "mps:0" (8 # 10)).
Proof.
  apply (diarize_from_path_success_consistent env_nominal audio_in tmp_path
           audio_conv DevMPS "mps:0").
  - vm_compute. left. reflexivity.
  - reflexivity.
Defined.

(** C9 (amended): every payload the worker writes is one of three kinds. A
    primary success payload has success=true with speakers, segments,
    total_segments, device_used and processing_time, and no error. A CPU
    fallback success payload has success=true with speakers, segments,
    total_segments, device_used="cpu", fallback_cpu=true and an error holding
    the message of the memory [RuntimeError] that caused the fallback, and no
    processing_time. A failure payload has success=false and error only.
    [diarize_isolated] itself writes only failure payloads (before line 89 or
    at it); the two success kinds come from [diarize_from_path]. *)
Theorem worker_payload_kinds env audio out use_mps bs cp d dstr :
  Forall failure_kind
    (writes (trace_of (diarize_isolated env audio out use_mps bs))) /\
  Forall (fun j => primary_kind j \/ fallback_kind env j \/ failure_kind j)
    (writes (trace_of (diarize_from_path env audio out cp d dstr))).
Proof.
  split.
  - destruct env as [av cpe mps pdev ff inf tocpu el].
    unfold diarize_isolated.
    worker_cases; repeat constructor.
  - destruct (diarize_from_path_writes_fallback env audio out cp d dstr)
      as [W|[[tr W]|[[tr [e [He [Hr [Hm W]]]]]|[m W]]]]; rewrite W;
      [constructor | constructor; [|constructor] ..].
    + left. repeat split; reflexivity.
    + right; left. repeat split; try reflexivity.
      exists e. repeat split; assumption || reflexivity.
    + right; right. split; reflexivity.
Qed.

(** C9 (counterexample): after an MPS out-of-memory error the CPU fallback
    writes a payload with success=true that carries an [error] key and no
    [processing_time]. *)
Lemma diarize_from_path_fallback_payload_has_error :
  exists j,
    writes (trace_of (diarize_from_path env_mps_oom audio_in tmp_path audio_conv
                        DevMPS "mps:0")) = [j] /\
    json_lookup "success" j = Some (JBool true) /\
    has_key "error" j = true /\
    has_key "processing_time" j = false.
Proof.
  eexists. split; [vm_compute; reflexivity|].
  split; [|split]; vm_compute; reflexivity.
Qed.

(** * Further properties of the code *)

(** ** Strings: [in], [rfind] and [substring] *)

Lemma prefix_append a b : String.prefix a (String.append a b) = true.
Proof.
  induction a as [|c a IH]; cbn; [destruct b; reflexivity|].
  destruct (ascii_dec c c); [exact IH | congruence].
Qed.

Lemma prefix_split a s : String.prefix a s = true -> exists b, s = String.append a b.
Proof.
  revert s. induction a as [|c a IH]; intros s H; [now exists s|].
  destruct s as [|d t]; cbn in H; [discriminate|].
  destruct (ascii_dec c d) as [<-|]; [|discriminate].
  destruct (IH t H) as [b ->]. now exists b.
Qed.

Lemma contains_iff sub s :
  contains sub s = true <->
  exists pre post, s = String.append pre (String.append sub post).
Proof.
  split.
  - induction s as [|c t IH]; cbn [contains]; intros H.
    + apply prefix_split in H as [b ->]. now exists "", b.
    + apply orb_true_iff in H as [H|H].
      * apply prefix_split in H as [b Hb]. exists "", b. exact Hb.
      * destruct (IH H) as [pre [post ->]]. now exists (String c pre), post.
  - intros [pre [post ->]]. induction pre as [|c pre IH].
    + pose proof (prefix_append sub post) as H.
      destruct (String.append sub post); cbn [contains String.append];
        rewrite H; reflexivity.
    + cbn [contains String.append]. rewrite IH. apply orb_true_r.
Qed.

Lemma append_assoc a b c :
  String.append a (String.append b c) = String.append (String.append a b) c.
Proof. induction a as [|x a IH]; cbn; congruence. Qed.

(** [contains (String c "")] is membership of the character. *)
Lemma contains_char_cons c d t :
  contains (String c EmptyString) (String d t)
  = (Ascii.eqb c d || contains (String c EmptyString) t)%bool.
Proof.
  cbn [contains String.prefix].
  destruct (ascii_dec c d) as [<-|Hne]; rewrite ?Ascii.eqb_refl.
  - destruct t; reflexivity.
  - apply Ascii.eqb_neq in Hne. rewrite Hne. reflexivity.
Qed.

Lemma contains_char_nil c : contains (String c EmptyString) EmptyString = false.
Proof. reflexivity. Qed.

Lemma contains_char_app c a b :
  contains (String c EmptyString) (String.append a b)
  = (contains (String c EmptyString) a || contains (String c EmptyString) b)%bool.
Proof.
  induction a as [|d a IH]; cbn [String.append]; [reflexivity|].
  rewrite !contains_char_cons, IH. apply orb_assoc.
Qed.

Lemma rfind_aux_acc c s i acc :
  rfind_aux c s i acc
  = match rfind_aux c s i None with Some j => Some j | None => acc end.
Proof.
  revert i acc. induction s as [|d t IH]; intros i acc; cbn; [reflexivity|].
  rewrite IH, (IH (S i) (if Ascii.eqb c d then Some i else None)).
  destruct (rfind_aux c t (S i) None); [reflexivity|].
  destruct (Ascii.eqb c d); reflexivity.
Qed.

Lemma rfind_aux_shift c s i :
  rfind_aux c s (S i) None = option_map S (rfind_aux c s i None).
Proof.
  enough (H : forall acc, rfind_aux c s (S i) (option_map S acc)
                          = option_map S (rfind_aux c s i acc)) by exact (H None).
  revert i. induction s as [|d t IH]; intros i acc; cbn; [reflexivity|].
  rewrite <- IH. destruct (Ascii.eqb c d); reflexivity.
Qed.

Lemma rfind_cons c d t :
  rfind c (String d t)
  = match rfind c t with
    | Some j => Some (S j)
    | None => if Ascii.eqb c d then Some 0%nat else None
    end.
Proof.
  unfold rfind. cbn. rewrite rfind_aux_acc, rfind_aux_shift.
  destruct (rfind_aux c t 0 None); reflexivity.
Qed.

Lemma rfind_none c s :
  rfind c s = None <-> contains (String c EmptyString) s = false.
Proof.
  induction s as [|d t IH]; [split; reflexivity|].
  rewrite rfind_cons, contains_char_cons.
  destruct (rfind c t); [split; [discriminate|]|].
  - intros H. apply orb_false_iff in H as [_ H]. apply IH in H. discriminate.
  - destruct (Ascii.eqb c d); cbn; [split; discriminate|]. exact IH.
Qed.

Lemma rfind_some c s i :
  rfind c s = Some i ->
  exists a b, s = String.append a (String c b) /\ String.length a = i /\
              contains (String c EmptyString) b = false.
Proof.
  revert i. induction s as [|d t IH]; intros i H; [discriminate|].
  rewrite rfind_cons in H. destruct (rfind c t) as [j|] eqn:Et.
  - injection H as <-. destruct (IH j eq_refl) as [a [b [-> [<- Hb]]]].
    exists (String d a), b. auto.
  - destruct (Ascii.eqb c d) eqn:Ecd; [|discriminate].
    injection H as <-. apply Ascii.eqb_eq in Ecd as ->.
    exists "", t. split; [reflexivity|]. split; [reflexivity|].
    now apply rfind_none.
Qed.

Lemma rfind_append c a b :
  contains (String c EmptyString) b = false ->
  rfind c (String.append a (String c b)) = Some (String.length a).
Proof.
  intros Hb. induction a as [|d a IH]; cbn [String.append String.length];
    rewrite rfind_cons.
  - apply rfind_none in Hb. rewrite Hb, Ascii.eqb_refl. reflexivity.
  - now rewrite IH.
Qed.

Lemma length_append a b :
  (String.length (String.append a b) = String.length a + String.length b)%nat.
Proof. induction a; cbn; congruence. Qed.

Lemma substring_all s : String.substring 0 (String.length s) s = s.
Proof. induction s; cbn; congruence. Qed.

Lemma substring_skip a s n m :
  String.substring (String.length a + n)%nat m (String.append a s)
  = String.substring n m s.
Proof. induction a; cbn; auto. Qed.

Lemma rsplit_ext_append pre ext :
  contains "." ext = false ->
  rsplit_ext (String.append pre (String "."%char ext)) = Some ext.
Proof.
  intros H. unfold rsplit_ext. rewrite rfind_append by exact H.
  f_equal. rewrite length_append. cbn [String.length].
  replace (String.length pre + S (String.length ext) - S (String.length pre))%nat
    with (String.length ext) by lia.
  rewrite <- Nat.add_1_r, substring_skip. cbn. apply substring_all.
Qed.

(** ** Helpers for the pipeline factory and the endpoint *)

Lemma get_safe_device_value prefer_mps fallback_to_cpu pr :
  exists tr d, get_safe_device prefer_mps fallback_to_cpu pr = (tr, inr d) /\
               (d = DevMPS \/ d = DevCPU) /\
               (forall d', ~ In (EvToDevice d') tr).
Proof.
  unfold get_safe_device, test_step.
  destruct (prefer_mps && has_mps_backend pr && mps_is_available pr);
    [|do 2 eexists; split; [reflexivity|]; split; [now right|]; intros ? []].
  destruct (step_raises pr TAlloc), (step_raises pr TMul), (step_raises pr TDel),
    (step_raises pr TEmptyCache), (step_raises pr TGc), fallback_to_cpu; cbn;
    (do 2 eexists; split; [reflexivity|]; split; [tauto|]);
    intros d' H; repeat (destruct H as [H|H]; [discriminate H|]); exact H.
Qed.

Ltac factory_cases pr pe pm b :=
  let fp := fresh "fp" in let ba := fresh "ba" in
  let tor := fresh "tor" in let sp := fresh "sp" in
  let tr := fresh "tr" in let d := fresh "d" in
  let G := fresh "G" in let Hd := fresh "Hd" in let Ht := fresh "Ht" in
  destruct pe as [fp ba tor sp];
  destruct (get_safe_device_value pm true pr) as [tr [d [G [Hd Ht]]]];
  unfold create_pyannote_pipeline_safe; rewrite G; cbn [pe_from_pretrained
    pe_batch_attr pe_to_raises pe_seg_params result_of trace_of];
  destruct Hd as [->| ->]; cbn;
  destruct fp, (tor DevMPS), (tor DevCPU), sp as [[|? ?]|], ba, b;
  cbn.

Lemma run_diarization_isolated_result available audio use_mps bs timeout p
  spawn_ok child s :
  snd (run_diarization_isolated available audio use_mps bs timeout p spawn_ok
         child s)
  = match (if available then st_tmp_error s p else None) with
    | Some msg => inl (Exn OSErr msg)
    | None => inr (supervisor_outcome available spawn_ok child)
    end.
Proof.
  destruct available; [|reflexivity].
  destruct (st_tmp_error s p) as [msg|] eqn:T;
    [rewrite (run_diarization_isolated_tmp_error _ _ _ _ _ _ _ _ _ T); reflexivity|].
  destruct spawn_ok; [|sup_simpl; reflexivity].
  sup_cases child td kd; reflexivity.
Qed.

Lemma run_diarization_isolated_output_removed available audio use_mps bs
  timeout p spawn_ok child s :
  st_fs s p = None ->
  st_fs (fst (run_diarization_isolated available audio use_mps bs timeout p
                spawn_ok child s)) p = None.
Proof.
  intros Hfresh. destruct available; [|exact Hfresh].
  destruct (st_tmp_error s p) as [msg|] eqn:T;
    [rewrite (run_diarization_isolated_tmp_error _ _ _ _ _ _ _ _ _ T); exact Hfresh|].
  destruct spawn_ok; [|sup_simpl; reflexivity].
  sup_cases child td kd; reflexivity.
Qed.

Lemma run_diarization_isolated_other_files available audio use_mps bs timeout p
  spawn_ok child s q :
  q <> p ->
  st_fs (fst (run_diarization_isolated available audio use_mps bs timeout p
                spawn_ok child s)) q = st_fs s q.
Proof.
  intros Hq. apply String.eqb_neq in Hq.
  destruct available; [|reflexivity].
  destruct (st_tmp_error s p) as [msg|] eqn:T;
    [rewrite (run_diarization_isolated_tmp_error _ _ _ _ _ _ _ _ _ T); reflexivity|].
  destruct spawn_ok; [|sup_simpl; rewrite ?Hq; reflexivity].
  sup_cases child td kd; rewrite ?Hq; reflexivity.
Qed.

Lemma respond_outcome elapsed available spawn_ok child s :
  respond elapsed (supervisor_outcome available spawn_ok child) s
  = (s, inr (endpoint_answer elapsed (supervisor_outcome available spawn_ok child))).
Proof.
  unfold supervisor_outcome.
  destruct (available && spawn_ok); [|reflexivity].
  destruct child as [t code [| | j] | art td kd]; try reflexivity.
  destruct j as [| | | | | | kvs]; try reflexivity.
  destruct (truthy (lookup "success" kvs)) eqn:T; [|reflexivity].
  destruct kvs as [|kv kvs]; [discriminate T|].
  cbn [respond truthy]. rewrite T. reflexivity.
Qed.

Lemma remove_upload_spec p s :
  p <> "" ->
  snd (remove_upload p s) = inr tt /\
  st_fs (fst (remove_upload p s)) p = None /\
  (forall q, q <> p -> st_fs (fst (remove_upload p s)) q = st_fs s q) /\
  st_alive (fst (remove_upload p s)) = st_alive s.
Proof.
  intros Hp. apply String.eqb_neq in Hp.
  unfold remove_upload. rewrite Hp.
  destruct s as [fs al pe cl tr te]. cbv [sbind path_exists sret stry unlink log modify].
  cbn [st_fs]. destruct (fs p) eqn:E; cbn; rewrite ?E; cbn;
    rewrite ?String.eqb_refl.
  - split; [reflexivity|]. split; [reflexivity|]. split; [|reflexivity].
    intros q Hq. apply String.eqb_neq in Hq. rewrite Hq. reflexivity.
  - split; [reflexivity|]. split; [reflexivity|]. split; reflexivity.
Qed.

(** [diarize] once the upload is accepted and saved: the supervisor call
    and the [finally] clause, then the [except] clauses. *)
Lemma diarize_accepted ae rq up s :
  rq_audio rq = Some up ->
  accepted_upload ae rq up = true ->
  up_save up = None ->
  st_tmp_error s (ae_upload_path ae) = None ->
  exists bs timeout, forall s' r,
    sfinally
      (result <- run_diarization_isolated (ae_available ae) (ae_upload_path ae)
                   (String.eqb (lower (form_get "use_mps" "true" (rq_form rq))) "true")
                   bs (Z.to_nat timeout) (ae_output_path ae) (ae_spawn_ok ae)
                   (ae_child ae) ;;
       respond (ae_elapsed ae) result)%sm
      (remove_upload (ae_upload_path ae))
      (with_fs (ae_upload_path ae) (Some CMalformed)
         (with_fs (ae_upload_path ae) (Some CEmpty)
            (SupState (st_fs s) (st_alive s) (st_pending s) (st_clock s)
               (st_trace s ++ [SMkTemp (ae_upload_path ae)]) (st_tmp_error s))))
    = (s', r) ->
    diarize ae rq s
    = (s', inr (match r with
                | inl e => diarize_error_response ae e
                | inr resp => resp
                end)).
Proof.
  intros Hrq Hacc Hsave Htmp.
  unfold accepted_upload in Hacc.
  destruct (String.eqb (up_filename up) "") eqn:Hf; [discriminate Hacc|].
  destruct (allowed_file (up_filename up)) eqn:Ha; [|discriminate Hacc].
  destruct (ae_int ae (form_get "batch_size" "16" (rq_form rq))) as [bz|] eqn:Hb;
    [|discriminate Hacc].
  destruct (ae_int ae (form_get "timeout" "600" (rq_form rq))) as [tz|] eqn:Ht;
    [|discriminate Hacc].
  exists bz, tz. intros s' r E.
  unfold diarize. rewrite Hrq, Hf, Ha. cbn [negb].
  unfold py_int. rewrite Hb, Ht.
  unfold save_upload. rewrite Hsave.
  cbv [stry sattempt create_tmp log modify sbind sret] in E |- *.
  rewrite Htmp. cbv beta iota. rewrite E. destruct r; reflexivity.
Qed.

Lemma remove_upload_never_raises p s : snd (remove_upload p s) = inr tt.
Proof.
  unfold remove_upload. destruct (String.eqb p ""); [reflexivity|].
  destruct s as [fs al pe cl tr te]. cbv [sbind path_exists sret stry unlink log modify].
  cbn [st_fs]. destruct (fs p) eqn:E; cbn; rewrite ?E; reflexivity.
Qed.

Lemma finally_answer available audio use_mps bs timeout p spawn_ok child
  elapsed upath s :
  sfinally
    (result <- run_diarization_isolated available audio use_mps bs timeout p
                 spawn_ok child ;;
     respond elapsed result)%sm
    (remove_upload upath) s
  = (fst (remove_upload upath
            (fst (run_diarization_isolated available audio use_mps bs timeout p
                    spawn_ok child s))),
     match (if available then st_tmp_error s p else None) with
     | Some msg => inl (Exn OSErr msg)
     | None => inr (endpoint_answer elapsed (supervisor_outcome available spawn_ok child))
     end).
Proof.
  unfold sfinally, sbind.
  pose proof (run_diarization_isolated_result available audio use_mps bs timeout
                p spawn_ok child s) as R.
  destruct (run_diarization_isolated available audio use_mps bs timeout p
              spawn_ok child s) as [s2 r]. cbn [snd fst] in R |- *. subst r.
  pose proof (remove_upload_never_raises upath s2) as U.
  destruct (if available then st_tmp_error s p else None) as [msg|].
  - destruct (remove_upload upath s2) as [s3 r3]. cbn in U |- *. now subst r3.
  - rewrite respond_outcome.
    destruct (remove_upload upath s2) as [s3 r3]. cbn in U |- *. now subst r3.
Qed.

Lemma diarize_answer ae rq up s :
  rq_audio rq = Some up ->
  accepted_upload ae rq up = true ->
  up_save up = None ->
  st_tmp_error s (ae_upload_path ae) = None ->
  exists bs timeout s1,
    s1 = with_fs (ae_upload_path ae) (Some CMalformed)
           (with_fs (ae_upload_path ae) (Some CEmpty)
              (SupState (st_fs s) (st_alive s) (st_pending s) (st_clock s)
                 (st_trace s ++ [SMkTemp (ae_upload_path ae)]) (st_tmp_error s))) /\
    diarize ae rq s
    = (fst (remove_upload (ae_upload_path ae)
              (fst (run_diarization_isolated (ae_available ae) (ae_upload_path ae)
                      (String.eqb (lower (form_get "use_mps" "true" (rq_form rq)))
                         "true")
                      bs (Z.to_nat timeout) (ae_output_path ae) (ae_spawn_ok ae)
                      (ae_child ae) s1))),
       inr (match (if ae_available ae then st_tmp_error s (ae_output_path ae)
                   else None) with
            | Some msg => exception_response (ae_elapsed ae) msg
            | None => endpoint_answer (ae_elapsed ae)
                        (supervisor_outcome (ae_available ae) (ae_spawn_ok ae)
                           (ae_child ae))
            end)).
Proof.
  intros Hrq Hacc Hsave Htmp.
  destruct (diarize_accepted ae rq up s Hrq Hacc Hsave Htmp) as [bs [timeout H]].
  exists bs, timeout. eexists. split; [reflexivity|].
  rewrite (H _ _ (finally_answer _ _ _ _ _ _ _ _ _ _ _)).
  f_equal. f_equal.
  destruct (ae_available ae); [|reflexivity].
  cbn [with_fs st_tmp_error].
  destruct (st_tmp_error s (ae_output_path ae)); reflexivity.
Qed.

(** When the upload's [NamedTemporaryFile] raises, [temp_path] is still
    [None] and the [except Exception] clause answers. *)
Lemma diarize_upload_tmp_error ae rq up s msg :
  rq_audio rq = Some up ->
  accepted_upload ae rq up = true ->
  st_tmp_error s (ae_upload_path ae) = Some msg ->
  diarize ae rq s = (s, inr (exception_response (ae_elapsed ae) msg)).
Proof.
  intros Hrq Hacc T.
  unfold accepted_upload in Hacc.
  destruct (String.eqb (up_filename up) "") eqn:Hf; [discriminate Hacc|].
  destruct (allowed_file (up_filename up)) eqn:Ha; [|discriminate Hacc].
  destruct (ae_int ae (form_get "batch_size" "16" (rq_form rq))) as [bz|] eqn:Hb;
    [|discriminate Hacc].
  destruct (ae_int ae (form_get "timeout" "600" (rq_form rq))) as [tz|] eqn:Ht;
    [|discriminate Hacc].
  unfold diarize. rewrite Hrq, Hf, Ha. cbn [negb].
  unfold py_int. rewrite Hb, Ht.
  cbv [stry sattempt create_tmp sbind sret sraise]. rewrite T. reflexivity.
Qed.

(** ** The supervisor *)

(** X1: [run_diarization_isolated] changes no file but its own result file. *)
Theorem run_diarization_isolated_frame available audio use_mps bs timeout p
  spawn_ok child s q :
  q <> p ->
  st_fs (fst (run_diarization_isolated available audio use_mps bs timeout p
                spawn_ok child s)) q = st_fs s q.
Proof.
  intros Hq. apply String.eqb_neq in Hq.
  destruct available; [|reflexivity].
  destruct (st_tmp_error s p) as [msg|] eqn:T;
    [rewrite (run_diarization_isolated_tmp_error _ _ _ _ _ _ _ _ _ T); reflexivity|].
  destruct spawn_ok.
  - sup_cases child td kd; rewrite ?Hq; reflexivity.
  - sup_simpl. rewrite ?Hq. reflexivity.
Qed.

Lemma run_diarization_isolated_frame_witness :
  audio_in <> tmp_path /\
  st_fs (fst (run_diarization_isolated true audio_in true 16 600 tmp_path true
                (ChildHangs CEmpty None None) sup_init)) audio_in
  = st_fs sup_init audio_in.
Proof.
  assert (H : audio_in <> tmp_path) by discriminate.
  split; [exact H|].
  exact (run_diarization_isolated_frame true audio_in true 16 600 tmp_path true
           (ChildHangs CEmpty None None) sup_init audio_in H).
Defined.

(** X2: [run_diarization_isolated] returns at most [timeout] seconds after it
    started when the child exits on its own, and at most [timeout + 7]
    seconds when it has to be stopped. *)
Theorem run_diarization_isolated_clock available audio use_mps bs timeout p
  spawn_ok child s :
  (st_clock (fst (run_diarization_isolated available audio use_mps bs timeout p
                    spawn_ok child s))
   <= st_clock s + timeout
      + match child with ChildHangs _ _ _ => 7 | ChildExits _ _ _ => 0 end)%nat.
Proof.
  destruct available; [|cbn; lia].
  destruct (st_tmp_error s p) as [msg|] eqn:T;
    [rewrite (run_diarization_isolated_tmp_error _ _ _ _ _ _ _ _ _ T); cbn; lia|].
  destruct spawn_ok.
  - sup_cases child td kd;
    repeat match goal with H : (_ <=? _)%nat = true |- _ => apply Nat.leb_le in H end;
    lia.
  - sup_simpl. lia.
Qed.

(** X3: when the child exits before the deadline the supervisor sends it no
    signal, reads the result file once and removes it; it returns
    [min t timeout] seconds after it started.  When the process cannot be
    started, it only creates and removes the result file.  (Both once the
    result file has been created.) *)
Theorem run_diarization_isolated_exit_trace audio use_mps bs timeout p t code art
  child s :
  st_tmp_error s p = None ->
  let r := run_diarization_isolated true audio use_mps bs timeout p true
             (ChildExits t code art) s in
  st_trace (fst r)
  = st_trace s ++ [SMkTemp p; SSpawn; SJoin timeout; SRead p; SUnlink p] /\
  st_clock (fst r) = (st_clock s + Nat.min t timeout)%nat /\
  st_alive (fst r) = false /\
  st_trace (fst (run_diarization_isolated true audio use_mps bs timeout p false
                   child s))
  = st_trace s ++ [SMkTemp p; SUnlink p].
Proof.
  intros T. cbv zeta.
  split; [|split; [|split]].
  - destruct art as [| | j]; sup_simpl; rewrite <- ?app_assoc; try reflexivity.
    destruct j; sup_simpl; rewrite <- ?app_assoc; try reflexivity.
    destruct (truthy _); sup_simpl; rewrite <- ?app_assoc; reflexivity.
  - destruct art as [| | j]; sup_simpl; try reflexivity.
    destruct j; sup_simpl; try reflexivity.
    destruct (truthy _); sup_simpl; reflexivity.
  - destruct art as [| | j]; sup_simpl; try reflexivity.
    destruct j; sup_simpl; try reflexivity.
    destruct (truthy _); sup_simpl; reflexivity.
  - sup_simpl. rewrite <- app_assoc. reflexivity.
Qed.

Lemma run_diarization_isolated_exit_trace_witness :
  st_tmp_error sup_init tmp_path = None /\
  st_trace (fst (run_diarization_isolated true "/tmp/in.wav" true 16 600 tmp_path
                   true (ChildExits 3 0 CEmpty) sup_init))
  = [SMkTemp tmp_path; SSpawn; SJoin 600; SRead tmp_path; SUnlink tmp_path].
Proof.
  split; [reflexivity|].
  exact (proj1 (run_diarization_isolated_exit_trace "/tmp/in.wav" true 16 600
                  tmp_path 3 0 CEmpty (ChildExits 3 0 CEmpty) sup_init eq_refl)).
Defined.

(** ** The worker *)

(** X4: the worker as written never runs ffmpeg, never calls the pipeline and
    never moves it to CPU itself. *)
Theorem diarize_isolated_never_transcodes env audio out use_mps bs :
  let tr := trace_of (diarize_isolated env audio out use_mps bs) in
  infer_count tr = 0%nat /\
  (forall src dst, ~ In (EvFfmpeg src dst) tr) /\
  ~ In (EvToDevice DevCPU) tr.
Proof.
  destruct env as [av cpe mps pdev ff inf tocpu el]. cbv zeta.
  unfold diarize_isolated.
  worker_cases; (split; [reflexivity|]);
    (split; [intros ? ? H | intros H]); cbn in H;
    repeat (destruct H as [H|H]; [discriminate H|]); exact H.
Qed.

(** X5: the worker either writes exactly one failure payload and returns
    [None], or raises and writes nothing. *)
Theorem diarize_isolated_payload_protocol env audio out use_mps bs :
  let r := diarize_isolated env audio out use_mps bs in
  (result_of r = inr None /\ exists m, writes (trace_of r) = [failure_payload m]) \/
  (exists e, result_of r = inl e /\ writes (trace_of r) = []).
Proof.
  destruct env as [av cpe mps pdev ff inf tocpu el]. cbv zeta.
  unfold diarize_isolated.
  worker_cases;
    first [ left; split; [reflexivity | eexists; reflexivity]
          | right; eexists; split; reflexivity ].
Qed.

(** X6: from the ffmpeg call on, given the converted path, the worker returns a dict exactly when it wrote it, as
    its only payload, with success=true; it returns [None] after writing
    one failure payload; it raises only when it wrote nothing. *)
Theorem diarize_from_path_result_written env audio out cp d dstr :
  let r := diarize_from_path env audio out cp d dstr in
  (exists j, result_of r = inr (Some j) /\ writes (trace_of r) = [j] /\
             json_lookup "success" j = Some (JBool true)) \/
  (result_of r = inr None /\ exists m, writes (trace_of r) = [failure_payload m]) \/
  (exists e, result_of r = inl e /\ writes (trace_of r) = []).
Proof.
  destruct env as [av cpe mps pdev ff inf tocpu el]. cbv zeta.
  unfold diarize_from_path.
  worker_cases;
    first [ left; eexists; split; [reflexivity|]; split; reflexivity
          | right; left; split; [reflexivity | eexists; reflexivity]
          | right; right; eexists; split; reflexivity ].
Qed.

(** X7: from the ffmpeg call on, given the converted path, the worker removes the 16 kHz file exactly when it
    wrote a success payload: every failure leaves it on disk. *)
Theorem diarize_from_path_converted_cleanup env audio out cp d dstr :
  let tr := trace_of (diarize_from_path env audio out cp d dstr) in
  In (EvUnlink cp) tr <->
  exists j, In j (writes tr) /\ json_lookup "success" j = Some (JBool true).
Proof.
  destruct env as [av cpe mps pdev ff inf tocpu el]. cbv zeta.
  unfold diarize_from_path.
  worker_cases; cbn [writes flat_map app In];
  split; intros H;
  repeat match goal with
         | H : exists _, _ |- _ => destruct H as [? [H ?]]
         | H : _ \/ _ |- _ => destruct H as [H|H]
         | H : False |- _ => destruct H
         end;
  try discriminate;
  try (subst; discriminate);
  first [ eexists; split; [left; reflexivity | reflexivity]
        | cbn; tauto
        | idtac ].
Qed.

(** X8: the "out of memory" test of the [except RuntimeError] clauses is
    subsumed by the "memory" test: a message counts as a memory error
    exactly when its lower-cased form contains "memory". *)
Theorem is_memory_message_memory msg :
  is_memory_message msg = contains "memory" (lower msg).
Proof.
  unfold is_memory_message.
  destruct (contains "out of memory" (lower msg)) eqn:E; [|reflexivity].
  cbn [orb]. symmetry. apply contains_iff.
  apply contains_iff in E as [pre [post E]].
  exists (String.append pre "out of "), post.
  rewrite E, <- append_assoc. reflexivity.
Qed.

(** ** The device selector and the pipeline factory *)

(** X9: the [fallback_to_cpu] flag of [get_safe_device] has no effect: both
    values give the same effects and the same device. *)
Theorem get_safe_device_fallback_ignored prefer_mps pr :
  get_safe_device prefer_mps true pr = get_safe_device prefer_mps false pr.
Proof.
  unfold get_safe_device, test_step.
  destruct (prefer_mps && has_mps_backend pr && mps_is_available pr); [|reflexivity].
  destruct (step_raises pr TAlloc), (step_raises pr TMul), (step_raises pr TDel),
    (step_raises pr TEmptyCache), (step_raises pr TGc); reflexivity.
Qed.

(** X10: [create_pyannote_pipeline_safe] raises exactly when loading the
    model raises, or when MPS was selected, the move to MPS or the device
    check raised, and the move to CPU raised too. *)
Theorem create_pyannote_pipeline_safe_raises pr pe prefer_mps b e :
  result_of (create_pyannote_pipeline_safe pr pe prefer_mps b) = inl e <->
  pe_from_pretrained pe = Some e \/
  (pe_from_pretrained pe = None /\
   result_of (get_safe_device prefer_mps true pr) = inr DevMPS /\
   (pe_to_raises pe DevMPS <> None \/ pe_seg_params pe = Some []) /\
   pe_to_raises pe DevCPU = Some e).
Proof.
  factory_cases pr pe prefer_mps b; intuition congruence.
Qed.

(** X11: a pipeline returned by [create_pyannote_pipeline_safe] is on MPS
    exactly when MPS was selected, the move to MPS succeeded and the device
    check did not raise; otherwise it is on CPU, or, when CPU was selected
    and the move to CPU raised, partly moved: that error is swallowed. *)
Theorem create_pyannote_pipeline_safe_placement pr pe prefer_mps b p :
  result_of (create_pyannote_pipeline_safe pr pe prefer_mps b) = inr p ->
  (pl_place p = On DevMPS <->
   result_of (get_safe_device prefer_mps true pr) = inr DevMPS /\
   pe_to_raises pe DevMPS = None /\ pe_seg_params pe <> Some []) /\
  (pl_place p = On DevMPS \/ pl_place p = On DevCPU \/
   (pl_place p = Partial DevCPU /\
    result_of (get_safe_device prefer_mps true pr) = inr DevCPU /\
    pe_to_raises pe DevCPU <> None)).
Proof.
  factory_cases pr pe prefer_mps b; intros H; try discriminate H;
    injection H as <-; cbn; intuition congruence.
Qed.

Lemma create_pyannote_pipeline_safe_placement_witness :
  result_of (create_pyannote_pipeline_safe probe_ok pe_cpu_move_fails false None)
  = inr (PipelineObj (Some 32%Z) (Partial DevCPU)) /\
  pl_place (PipelineObj (Some 32%Z) (Partial DevCPU)) <> On DevMPS.
Proof.
  assert (H : result_of (create_pyannote_pipeline_safe probe_ok pe_cpu_move_fails
                           false None)
              = inr (PipelineObj (Some 32%Z) (Partial DevCPU))) by reflexivity.
  split; [exact H|]. intros E.
  apply (create_pyannote_pipeline_safe_placement _ _ _ _ _ H) in E.
  destruct E as [G _]. discriminate G.
Defined.

(** X12: the factory changes [embedding_batch_size] only when MPS is selected
    and the pipeline has the attribute, and then sets it to the requested
    size, 16 when none is given. *)
Theorem create_pyannote_pipeline_safe_batch pr pe prefer_mps b p :
  result_of (create_pyannote_pipeline_safe pr pe prefer_mps b) = inr p ->
  (result_of (get_safe_device prefer_mps true pr) = inr DevCPU ->
   pl_batch p = pe_batch_attr pe) /\
  (result_of (get_safe_device prefer_mps true pr) = inr DevMPS ->
   pe_batch_attr pe <> None ->
   pl_batch p = Some match b with Some n => n | None => 16%Z end) /\
  (pe_batch_attr pe = None -> pl_batch p = None).
Proof.
  factory_cases pr pe prefer_mps b; intros H; try discriminate H;
    injection H as <-; cbn; intuition congruence.
Qed.

Lemma create_pyannote_pipeline_safe_batch_witness :
  result_of (create_pyannote_pipeline_safe probe_ok pe_nominal true None)
  = inr (PipelineObj (Some 16%Z) (On DevMPS)) /\
  pl_batch (PipelineObj (Some 16%Z) (On DevMPS)) = Some 16%Z.
Proof.
  assert (H : result_of (create_pyannote_pipeline_safe probe_ok pe_nominal true None)
              = inr (PipelineObj (Some 16%Z) (On DevMPS))) by reflexivity.
  split; [exact H|].
  apply (proj1 (proj2 (create_pyannote_pipeline_safe_batch _ _ _ _ _ H)));
    [reflexivity | discriminate].
Defined.

(** X13: with [prefer_mps=False] the factory never runs the MPS self-test and
    never moves the pipeline anywhere but to CPU; it raises only when
    loading the model raises, and returns a pipeline on CPU or partly
    moved to CPU. *)
Theorem create_pyannote_pipeline_safe_cpu_only pr pe b :
  let r := create_pyannote_pipeline_safe pr pe false b in
  (forall ev, In ev (trace_of r) -> ev = EvToDevice DevCPU) /\
  (forall e, result_of r = inl e -> pe_from_pretrained pe = Some e) /\
  (forall p, result_of r = inr p ->
             pl_place p = On DevCPU \/ pl_place p = Partial DevCPU).
Proof.
  destruct pe as [fp ba tor sp]. cbv zeta.
  unfold create_pyannote_pipeline_safe. cbn.
  destruct fp, (tor DevCPU), sp as [[|? ?]|], ba; cbn;
    (split; [intros ev H; repeat (destruct H as [H|H]; [now subst|]); destruct H|]);
    split; intros ? H; try discriminate H; injection H as <-; cbn; tauto.
Qed.

(** ** The endpoint *)

(** X14: [allowed_file] accepts a file name exactly when it ends in a dot
    followed by a dot-free extension whose lower-cased form is one of the
    six allowed ones: only the last extension counts and case is ignored. *)
Theorem allowed_file_iff filename :
  allowed_file filename = true <->
  exists pre ext, filename = String.append pre (String "."%char ext) /\
                  contains "." ext = false /\
                  In (lower ext) allowed_extensions.
Proof.
  unfold allowed_file. split.
  - intros H. apply andb_true_iff in H as [_ H].
    destruct (rsplit_ext filename) as [ext|] eqn:E; [|discriminate].
    unfold rsplit_ext in E. destruct (rfind "."%char filename) as [i|] eqn:F;
      [|discriminate].
    destruct (rfind_some _ _ _ F) as [pre [b [-> [_ Hb]]]].
    pose proof (rsplit_ext_append pre b Hb) as R. unfold rsplit_ext in R.
    rewrite F in R. rewrite E in R. injection R as Heq; subst b.
    exists pre, ext. split; [reflexivity|]. split; [exact Hb|].
    apply existsb_exists in H as [x [Hx Heq]].
    apply String.eqb_eq in Heq. now subst.
  - intros [pre [ext [-> [Hdot Hin]]]].
    rewrite rsplit_ext_append by exact Hdot.
    apply andb_true_iff. split.
    + apply contains_iff. exists pre, ext. reflexivity.
    + apply existsb_exists. exists (lower ext). split; [exact Hin|].
      apply String.eqb_refl.
Qed.

(** X15: a request without an [audio] file, with an empty file name or with a
    name [allowed_file] refuses gets 400 with success=false, and nothing
    is written or started. *)
Theorem diarize_rejects_upload ae rq s :
  match rq_audio rq with
  | None => true
  | Some up => String.eqb (up_filename up) "" || negb (allowed_file (up_filename up))
  end = true ->
  exists msg, diarize ae rq s = (s, inr (400%Z, error_body msg)).
Proof.
  unfold diarize. destruct (rq_audio rq) as [up|]; intros H; [|eexists; reflexivity].
  destruct (String.eqb (up_filename up) ""); [eexists; reflexivity|].
  destruct (allowed_file (up_filename up)); [discriminate H|].
  eexists; reflexivity.
Qed.

Lemma diarize_rejects_upload_witness :
  match rq_audio rq_no_audio with
  | None => true
  | Some up => String.eqb (up_filename up) "" || negb (allowed_file (up_filename up))
  end = true /\
  exists msg, diarize ae_fallback rq_no_audio sup_init
              = (sup_init, inr (400%Z, error_body msg)).
Proof.
  split; [reflexivity|]. exact (diarize_rejects_upload ae_fallback rq_no_audio sup_init eq_refl).
Defined.

(** X16: an accepted upload whose [batch_size] or [timeout] field is not an
    integer gets 400 with the error "Erreur de paramètre: " followed by
    the message of [int]'s ValueError, before any file is written or any
    process started. *)
Theorem diarize_bad_parameter ae rq up s :
  rq_audio rq = Some up ->
  up_filename up <> "" ->
  allowed_file (up_filename up) = true ->
  ae_int ae (form_get "batch_size" "16" (rq_form rq)) = None \/
  ae_int ae (form_get "timeout" "600" (rq_form rq)) = None ->
  exists x, (x = form_get "batch_size" "16" (rq_form rq) \/
             x = form_get "timeout" "600" (rq_form rq)) /\
    diarize ae rq s
    = (s, inr (400%Z, error_body (String.append "Erreur de paramètre: "
                                    (ae_int_error ae x)))).
Proof.
  intros Hrq Hf Ha Hint. apply String.eqb_neq in Hf.
  unfold diarize. rewrite Hrq, Hf, Ha. cbn [negb]. unfold py_int.
  destruct (ae_int ae (form_get "batch_size" "16" (rq_form rq))) eqn:Hb.
  - destruct Hint as [Hint|Hint]; [discriminate Hint|]. rewrite Hint.
    eexists. split; [right; reflexivity|]. reflexivity.
  - eexists. split; [left; reflexivity|]. reflexivity.
Qed.

Lemma diarize_bad_parameter_witness :
  rq_audio rq_bad_batch = Some upload_ok /\ up_filename upload_ok <> "" /\
  allowed_file (up_filename upload_ok) = true /\
  ae_int ae_fallback (form_get "batch_size" "16" (rq_form rq_bad_batch)) = None /\
  fst (diarize ae_fallback rq_bad_batch sup_init) = sup_init.
Proof.
  assert (Hf : up_filename upload_ok <> "") by discriminate.
  assert (Ha : allowed_file (up_filename upload_ok) = true) by (vm_compute; reflexivity).
  assert (Hb : ae_int ae_fallback (form_get "batch_size" "16" (rq_form rq_bad_batch))
               = None) by (vm_compute; reflexivity).
  split; [reflexivity|]. split; [exact Hf|]. split; [exact Ha|]. split; [exact Hb|].
  destruct (diarize_bad_parameter ae_fallback rq_bad_batch upload_ok sup_init eq_refl
              Hf Ha (or_introl Hb)) as [x [_ ->]].
  reflexivity.
Defined.

(** X17: the response to an accepted upload whose file is saved depends
    only on which temporary files can be created and on what the supervisor
    returned.  When [NamedTemporaryFile] raises, for the upload (line 116) or
    in [run_diarization_isolated] (line 239), the [except Exception] clause
    answers 500 with the text of that [OSError].  Otherwise the answer is
    200 with the artifact's fields for a result, and 500 with the fixed
    error "Timeout ou erreur inconnue" for every other outcome: the worker's
    error text never reaches the client. *)
Theorem diarize_response ae rq up s :
  rq_audio rq = Some up ->
  accepted_upload ae rq up = true ->
  up_save up = None ->
  snd (diarize ae rq s)
  = inr match st_tmp_error s (ae_upload_path ae) with
        | Some msg => exception_response (ae_elapsed ae) msg
        | None =>
            match (if ae_available ae then st_tmp_error s (ae_output_path ae)
                   else None) with
            | Some msg => exception_response (ae_elapsed ae) msg
            | None =>
                match supervisor_outcome (ae_available ae) (ae_spawn_ok ae)
                        (ae_child ae) with
                | Some (JObj kvs) => success_response (ae_elapsed ae) kvs
                | _ => failure_response (ae_elapsed ae)
                         (JStr "Timeout ou erreur inconnue")
                end
            end
        end.
Proof.
  intros Hrq Hacc Hsave.
  destruct (st_tmp_error s (ae_upload_path ae)) as [msg|] eqn:T.
  - rewrite (diarize_upload_tmp_error ae rq up s msg Hrq Hacc T). reflexivity.
  - destruct (diarize_answer ae rq up s Hrq Hacc Hsave T) as [bs [t [s1 [_ ->]]]].
    reflexivity.
Qed.

Lemma diarize_response_witness :
  rq_audio rq_ok = Some upload_ok /\ accepted_upload ae_fallback rq_ok upload_ok = true /\
  up_save upload_ok = None /\
  snd (diarize ae_fallback rq_ok sup_result_disk_full)
  = inr (exception_response (3 # 2) "[Errno 28] No space left on device").
Proof.
  split; [reflexivity|]. split; [vm_compute; reflexivity|]. split; [reflexivity|].
  exact (diarize_response ae_fallback rq_ok upload_ok sup_result_disk_full eq_refl
           ltac:(vm_compute; reflexivity) eq_refl).
Defined.

(** X18: after an accepted and saved upload the uploaded temporary file and the
    supervisor's result file are both gone, and no other file changed, also
    when the supervisor cannot create its result file. *)
Theorem diarize_cleans_up ae rq up s :
  rq_audio rq = Some up ->
  accepted_upload ae rq up = true ->
  up_save up = None ->
  st_tmp_error s (ae_upload_path ae) = None ->
  ae_upload_path ae <> "" ->
  ae_upload_path ae <> ae_output_path ae ->
  st_fs s (ae_output_path ae) = None ->
  st_fs (fst (diarize ae rq s)) (ae_upload_path ae) = None /\
  st_fs (fst (diarize ae rq s)) (ae_output_path ae) = None /\
  (forall q, q <> ae_upload_path ae -> q <> ae_output_path ae ->
             st_fs (fst (diarize ae rq s)) q = st_fs s q).
Proof.
  intros Hrq Hacc Hsave Htmp Hne Hdiff Hfresh.
  destruct (diarize_answer ae rq up s Hrq Hacc Hsave Htmp) as [bs [t [s1 [E1 ->]]]].
  cbn [fst].
  set (s2 := fst (run_diarization_isolated _ _ _ _ _ _ _ _ s1)).
  destruct (remove_upload_spec (ae_upload_path ae) s2 Hne) as [_ [Hup [Hframe _]]].
  split; [exact Hup|]. split.
  - rewrite Hframe by congruence.
    apply run_diarization_isolated_output_removed.
    subst s1. cbn. apply String.eqb_neq in Hdiff.
    rewrite String.eqb_sym, Hdiff. exact Hfresh.
  - intros q Hq1 Hq2. rewrite Hframe by exact Hq1.
    unfold s2. rewrite run_diarization_isolated_other_files by exact Hq2.
    subst s1. cbn. apply String.eqb_neq in Hq1. rewrite Hq1. reflexivity.
Qed.

Lemma diarize_cleans_up_witness :
  rq_audio rq_ok = Some upload_ok /\ accepted_upload ae_fallback rq_ok upload_ok = true /\
  up_save upload_ok = None /\
  st_tmp_error sup_init (ae_upload_path ae_fallback) = None /\
  ae_upload_path ae_fallback <> "" /\
  ae_upload_path ae_fallback <> ae_output_path ae_fallback /\
  st_fs sup_init (ae_output_path ae_fallback) = None /\
  st_fs (fst (diarize ae_fallback rq_ok sup_init)) (ae_upload_path ae_fallback) = None.
Proof.
  assert (Hacc : accepted_upload ae_fallback rq_ok upload_ok = true)
    by (vm_compute; reflexivity).
  assert (Hne : ae_upload_path ae_fallback <> "") by discriminate.
  assert (Hdiff : ae_upload_path ae_fallback <> ae_output_path ae_fallback)
    by discriminate.
  split; [reflexivity|]. split; [exact Hacc|]. split; [reflexivity|].
  split; [reflexivity|].
  split; [exact Hne|]. split; [exact Hdiff|]. split; [reflexivity|].
  exact (proj1 (diarize_cleans_up ae_fallback rq_ok upload_ok sup_init eq_refl
                  Hacc eq_refl eq_refl Hne Hdiff eq_refl)).
Defined.

(** X19: after a CPU fallback in the worker, the client gets 200 with
    processing_time 0, fallback_cpu=true, a warning and the payload's
    speakers, and no error field: the memory error message is dropped. *)
Theorem diarize_cpu_fallback_response ae rq up s t code speakers segs err :
  rq_audio rq = Some up ->
  accepted_upload ae rq up = true ->
  up_save up = None ->
  st_tmp_error s (ae_upload_path ae) = None ->
  st_tmp_error s (ae_output_path ae) = None ->
  ae_available ae = true ->
  ae_spawn_ok ae = true ->
  ae_child ae = ChildExits t code (CDoc (fallback_payload speakers segs err)) ->
  exists body,
    snd (diarize ae rq s) = inr (200%Z, body) /\
    json_lookup "processing_time" body = Some (JInt 0) /\
    json_lookup "fallback_cpu" body = Some (JBool true) /\
    json_lookup "warning" body = Some (JStr "OOM sur MPS, traité sur CPU") /\
    json_lookup "speakers" body = Some (json_strs speakers) /\
    has_key "error" body = false.
Proof.
  intros Hrq Hacc Hsave Htmp Htmp' Hav Hsp Hch.
  destruct (diarize_answer ae rq up s Hrq Hacc Hsave Htmp) as [bs [t' [s1 [_ ->]]]].
  rewrite Hav, Htmp', Hsp, Hch. cbn [snd].
  eexists. split; [reflexivity|].
  repeat split; reflexivity.
Qed.

Lemma diarize_cpu_fallback_response_witness :
  rq_audio rq_ok = Some upload_ok /\ accepted_upload ae_fallback rq_ok upload_ok = true /\
  up_save upload_ok = None /\
  st_tmp_error sup_init (ae_upload_path ae_fallback) = None /\
  st_tmp_error sup_init (ae_output_path ae_fallback) = None /\
  ae_available ae_fallback = true /\
  ae_spawn_ok ae_fallback = true /\
  exists body,
    snd (diarize ae_fallback rq_ok sup_init) = inr (200%Z, body) /\
    json_lookup "processing_time" body = Some (JInt 0).
Proof.
  assert (Hacc : accepted_upload ae_fallback rq_ok upload_ok = true)
    by (vm_compute; reflexivity).
  split; [reflexivity|]. split; [exact Hacc|]. split; [reflexivity|].
  split; [reflexivity|]. split; [reflexivity|].
  split; [reflexivity|]. split; [reflexivity|].
  destruct (diarize_cpu_fallback_response ae_fallback rq_ok upload_ok sup_init 3 0
              (speakers_of tracks_ab) (speaker_segments tracks_ab)
              "MPS backend out of memory" eq_refl Hacc eq_refl eq_refl eq_refl
              eq_refl eq_refl eq_refl)
    as [body [H1 [H2 _]]].
  exists body. split; [exact H1 | exact H2].
Defined.

(** X20: when saving the upload raises, [temp_path] is still [None], so the
    [finally] clause removes nothing: the temporary file created by
    [NamedTemporaryFile(delete=False)] stays on disk, no process starts,
    and the response has success=false. *)
Theorem diarize_save_failure_keeps_upload ae rq up s e :
  rq_audio rq = Some up ->
  accepted_upload ae rq up = true ->
  st_tmp_error s (ae_upload_path ae) = None ->
  up_save up = Some e ->
  st_fs (fst (diarize ae rq s)) (ae_upload_path ae) <> None /\
  st_trace (fst (diarize ae rq s)) = st_trace s ++ [SMkTemp (ae_upload_path ae)] /\
  exists code body, snd (diarize ae rq s) = inr (code, body) /\
                    json_lookup "success" body = Some (JBool false).
Proof.
  intros Hrq Hacc Htmp Hsave.
  unfold accepted_upload in Hacc.
  destruct (String.eqb (up_filename up) "") eqn:Hf; [discriminate Hacc|].
  destruct (allowed_file (up_filename up)) eqn:Ha; [|discriminate Hacc].
  destruct (ae_int ae (form_get "batch_size" "16" (rq_form rq))) as [bz|] eqn:Hb;
    [|discriminate Hacc].
  destruct (ae_int ae (form_get "timeout" "600" (rq_form rq))) as [tz|] eqn:Ht;
    [|discriminate Hacc].
  unfold diarize. rewrite Hrq, Hf, Ha. cbn [negb].
  unfold py_int. rewrite Hb, Ht.
  unfold save_upload. rewrite Hsave.
  cbv [stry sattempt create_tmp log modify sbind sret sraise diarize_error_response].
  rewrite Htmp.
  destruct (exc_cls e); cbn; rewrite String.eqb_refl;
    (split; [discriminate|]); (split; [reflexivity|]); do 2 eexists; split; reflexivity.
Qed.

Lemma diarize_save_failure_keeps_upload_witness :
  rq_audio rq_disk_full = Some upload_disk_full /\
  accepted_upload ae_fallback rq_disk_full upload_disk_full = true /\
  st_tmp_error sup_init (ae_upload_path ae_fallback) = None /\
  up_save upload_disk_full = Some (Exn OSErr "No space left on device") /\
  st_fs (fst (diarize ae_fallback rq_disk_full sup_init)) (ae_upload_path ae_fallback)
  <> None.
Proof.
  assert (Hacc : accepted_upload ae_fallback rq_disk_full upload_disk_full = true)
    by (vm_compute; reflexivity).
  split; [reflexivity|]. split; [exact Hacc|]. split; [reflexivity|].
  split; [reflexivity|].
  exact (proj1 (diarize_save_failure_keeps_upload ae_fallback rq_disk_full
                  upload_disk_full sup_init _ eq_refl Hacc eq_refl eq_refl)).
Defined.

